(** * openssh_wrapper: command construction, execution and transfer

    A shallow embedding of [openssh_wrapper.py].  The module drives the
    external [ssh] and [scp] binaries; here the operating system is an
    explicit parameter ([os]) and every method of [SSHConnection] is a
    computation in a state-and-exception monad over the observable
    effects: the child processes started, the signals sent and the
    scratch directories that exist.

    Text and byte strings are both represented by their UTF-8 byte
    sequence, so the conversions [b] and [u] do not change the
    representation. *)

From Stdlib Require Import String Ascii List Bool ZArith Lia DecimalString.
Import ListNotations.
Local Open Scope string_scope.
Local Open Scope list_scope.

(** ** Python values and library functions used by the module *)

Module Py.

Definition empty : string := EmptyString.

(** Truth value of a [str]/[bytes] object. *)
Definition truthy (s : string) : bool :=
  match s with EmptyString => false | String _ _ => true end.

(** Truth value of an argument that is either [None] or a string. *)
Definition truthy_opt (o : option string) : bool :=
  match o with None => false | Some s => truthy s end.

(** [str(n)] for an integer. *)
Definition str_of_int (z : Z) : string := NilZero.string_of_int (Z.to_int z).

(** [sep.join(items)]. *)
Definition join (sep : string) (items : list string) : string :=
  String.concat sep items.

Definition is_space (a : ascii) : bool :=
  let n := nat_of_ascii a in
  (n =? 32)%nat || ((9 <=? n)%nat && (n <=? 13)%nat).

Fixpoint lstrip (l : list ascii) : list ascii :=
  match l with
  | a :: l' => if is_space a then lstrip l' else l
  | [] => []
  end.

(** [s.strip()]. *)
Definition strip (s : string) : string :=
  string_of_list_ascii
    (rev (lstrip (rev (lstrip (list_ascii_of_string s))))).

Definition slash : ascii := "/"%char.

Fixpoint has_slash (p : string) : bool :=
  match p with
  | EmptyString => false
  | String c rest => Ascii.eqb c slash || has_slash rest
  end.

(** [os.path.basename]: what follows the last slash. *)
Fixpoint basename (p : string) : string :=
  match p with
  | EmptyString => EmptyString
  | String c rest =>
      if has_slash rest then basename rest
      else if Ascii.eqb c slash then rest else p
  end.

(** The prefix of [p] up to and including its last slash. *)
Fixpoint head_of (p : string) : string :=
  match p with
  | EmptyString => EmptyString
  | String c rest =>
      if has_slash rest then String c (head_of rest)
      else if Ascii.eqb c slash then String c EmptyString else EmptyString
  end.

Definition all_slashes (l : list ascii) : bool :=
  forallb (fun c => Ascii.eqb c slash) l.

Fixpoint drop_slashes (l : list ascii) : list ascii :=
  match l with
  | c :: l' => if Ascii.eqb c slash then drop_slashes l' else l
  | [] => []
  end.

(** [os.path.dirname]. *)
Definition dirname (p : string) : string :=
  let head := list_ascii_of_string (head_of p) in
  if all_slashes head then string_of_list_ascii head
  else string_of_list_ascii (rev (drop_slashes (rev head))).

Definition starts_with_slash (p : string) : bool :=
  match p with String c _ => Ascii.eqb c slash | EmptyString => false end.

Fixpoint ends_with_slash (p : string) : bool :=
  match p with
  | EmptyString => false
  | String c EmptyString => Ascii.eqb c slash
  | String _ rest => ends_with_slash rest
  end.

(** [os.path.join] of two components. *)
Definition path_join (a p : string) : string :=
  if starts_with_slash p then p
  else if negb (truthy a) || ends_with_slash a then a ++ p
  else a ++ "/" ++ p.

Definition between (lo hi : nat) (a : ascii) : bool :=
  let n := nat_of_ascii a in ((lo <=? n)%nat && (n <=? hi)%nat).

Definition is_alnum (a : ascii) : bool :=
  between 48 57 a || between 65 90 a || between 97 122 a.

Definition one_of (set : string) (a : ascii) : bool :=
  existsb (Ascii.eqb a) (list_ascii_of_string set).

(** Characters that [pipes.quote] leaves alone. *)
Definition shell_safe (a : ascii) : bool :=
  is_alnum a || one_of "_@%+=:,./-" a.

Definition squote : string := "'".
Definition dquote : string := String (ascii_of_nat 34) EmptyString.

Fixpoint escape_squotes (s : string) : string :=
  match s with
  | EmptyString => EmptyString
  | String c rest =>
      if Ascii.eqb c "'"%char
      then squote ++ dquote ++ squote ++ dquote ++ squote ++ escape_squotes rest
      else String c (escape_squotes rest)
  end.

(** [pipes.quote]. *)
Definition quote (s : string) : string :=
  if negb (truthy s) then squote ++ squote
  else if forallb shell_safe (list_ascii_of_string s) then s
  else squote ++ escape_squotes s ++ squote.

(** The character class of the regular expression
    [^[a-zA-Z0-9.\-_]+$] used for server and login names. *)
Definition ident_char (a : ascii) : bool := is_alnum a || one_of ".-_" a.

Definition newline : ascii := ascii_of_nat 10.

(** [re.match] of that expression: a non-empty run of the class,
    optionally followed by one final newline, which [$] lets through. *)
Fixpoint ident_tail (l : list ascii) : bool :=
  match l with
  | [] => true
  | [c] => ident_char c || Ascii.eqb c newline
  | c :: l' => ident_char c && ident_tail l'
  end.

Definition ident_match (s : string) : bool :=
  match list_ascii_of_string s with
  | [] => false
  | c :: l => ident_char c && ident_tail l
  end.

Definition starts_with_tilde (p : string) : bool :=
  match p with String c _ => Ascii.eqb c "~"%char | EmptyString => false end.

End Py.

(** ** Module-level helpers *)

(** [b] and [u] convert between text and bytes; on the UTF-8
    representation both are the identity. *)
Definition b (s : string) : string := s.
Definition u (s : string) : string := s.

Definition b_list (items : list string) : list string := map b items.
Definition u_list (items : list string) : list string := map u items.

Definition b_quote (cmd_chunks : list string) : string :=
  Py.join (b " ") (map (fun chunk => b (Py.quote (u chunk))) cmd_chunks).

(** ** Exceptions and tunnels *)

Inductive exn : Type :=
| SSHError (msg : string)
| ValueError (msg : string)
| NameError (name : string)
| AttributeError (msg : string)
| OSError (msg : string).

Inductive result (A : Type) : Type :=
| Ok (a : A)
| Raise (e : exn).
Arguments Ok {A} a.
Arguments Raise {A} e.

(** [_SSHTunnel] and its two subclasses, which differ in [__str__]. *)
Inductive tunnel_class : Type := BaseTunnel | SSHForwardingTunnel | SSHRevForwardingTunnel.

Record SSHTunnel : Type := {
  tunnel_cls : tunnel_class;
  local_addr : string;
  local_port : Z;
  remote_addr : string;
  remote_port : Z
}.

Definition new_tunnel (cls : tunnel_class) (l_a : string) (l_p : Z)
    (r_a : string) (r_p : Z) : result SSHTunnel :=
  if (l_p =? 0)%Z || (r_p =? 0)%Z then
    Raise (SSHError "SSHTunnel objects require the local port and the remote port to be set and non-zero.")
  else
    Ok {| tunnel_cls := cls; local_addr := l_a; local_port := l_p;
          remote_addr := r_a; remote_port := r_p |}.

Definition tunnel_base_str (t : SSHTunnel) : string :=
  local_addr t ++ ":" ++ Py.str_of_int (local_port t) ++ ":" ++
  remote_addr t ++ ":" ++ Py.str_of_int (remote_port t).

Definition tunnel_str (t : SSHTunnel) : string :=
  match tunnel_cls t with
  | BaseTunnel => tunnel_base_str t
  | SSHForwardingTunnel => "-L " ++ tunnel_base_str t
  | SSHRevForwardingTunnel => "-R " ++ tunnel_base_str t
  end.

(** ** The connection object *)

(** A port is given as an integer or as a string. *)
Inductive port_value : Type := PortInt (n : Z) | PortStr (s : string).

Definition port_truthy (p : option port_value) : bool :=
  match p with
  | None => false
  | Some (PortInt n) => negb (n =? 0)%Z
  | Some (PortStr s) => Py.truthy s
  end.

Definition port_str (p : port_value) : string :=
  match p with PortInt n => Py.str_of_int n | PortStr s => s end.

Record SSHConnection : Type := {
  server : string;
  port : option port_value;
  timeout : Z;
  user : string;
  debug : bool;
  master : bool;
  control_path : option string;
  slave : bool;
  configfile : option string;
  login : option string;
  identity_file : option string;
  ssh_agent_socket : option string;
  options : list string;
  master_ssh_pipe : option nat
}.

(** The role of a connection, read off its two flags. *)
Inductive ConnectionRole : Type := Standalone | Primary | Secondary | PrimaryAndSecondary.

Definition role_of (is_master is_slave : bool) : ConnectionRole :=
  match is_master, is_slave with
  | false, false => Standalone
  | true, false => Primary
  | false, true => Secondary
  | true, true => PrimaryAndSecondary
  end.

Definition role (c : SSHConnection) : ConnectionRole := role_of (master c) (slave c).

(** ** Command builders *)

Definition no_interpreter_msg : string :=
  "SSHConnection.ssh_command(): No interpreter given.".

Definition is_none {A : Type} (o : option A) : bool :=
  match o with None => true | Some _ => false end.

Definition when_some (o : option string) (f : string -> list string) : list string :=
  match o with
  | Some s => if Py.truthy s then f s else []
  | None => []
  end.

Definition ssh_command (c : SSHConnection) (interpreter : option string)
    (forward_ssh_agent init_master : bool) (tunnels : list SSHTunnel)
    : result (list string) :=
  if negb (Py.truthy_opt interpreter) && negb init_master &&
     match tunnels with [] => true | _ => false end
  then Raise (SSHError no_interpreter_msg)
  else
    let cmd := ["/usr/bin/ssh"] in
    let cmd := if debug c then cmd ++ ["-vvvv"] else cmd in
    let cmd := cmd ++ when_some (login c) (fun l => ["-l"; l]) in
    let cmd := cmd ++ when_some (configfile c) (fun f => ["-F"; f]) in
    let cmd := cmd ++ when_some (identity_file c) (fun f => ["-i"; f]) in
    let cmd := if forward_ssh_agent then cmd ++ ["-A"] else cmd in
    let cmd := match port c with
               | Some p => if port_truthy (port c) then cmd ++ ["-p"; port_str p] else cmd
               | None => cmd
               end in
    let cmd := if is_none interpreter then cmd ++ ["-N"] else cmd in
    let cmd := match control_path c with
               | Some cp => if master c && init_master then cmd ++ ["-M"; "-S"; cp] else cmd
               | None => cmd
               end in
    let cmd := match control_path c with
               | Some cp => if slave c && negb init_master then cmd ++ ["-S"; cp] else cmd
               | None => cmd
               end in
    let cmd := cmd ++ map tunnel_str tunnels in
    let cmd := cmd ++ flat_map (fun option => ["-o"; option]) (options c) in
    let cmd := cmd ++ [server c] in
    let cmd := cmd ++ when_some interpreter (fun i => [b i]) in
    Ok (b_list cmd).

Definition verbosity (c : SSHConnection) : string :=
  if debug c then "-vvvv" else "-q".

Definition remotename (c : SSHConnection) : string :=
  match login c with
  | Some l => if Py.truthy l then u l ++ "@" ++ u (server c) else server c
  | None => server c
  end.

(** In [scp_down_command] the port goes into the list as it is, without
    [str]; [b_list] then fails on an integer port. *)
Definition down_port_flag (c : SSHConnection) : result (list string) :=
  match port c with
  | Some (PortInt n) =>
      if port_truthy (port c)
      then Raise (AttributeError "'int' object has no attribute 'encode'")
      else Ok []
  | Some (PortStr s) => if port_truthy (port c) then Ok ["-P"; s] else Ok []
  | None => Ok []
  end.

Definition scp_down_command (c : SSHConnection) (remotefile localtarget : option string)
    : result (option (list string)) :=
  match remotefile, localtarget with
  | Some rf, Some lt =>
      if Py.truthy rf && Py.truthy lt then
        let cmd := ["/usr/bin/scp"; verbosity c; "-r"] in
        let cmd := cmd ++ when_some (configfile c) (fun f => ["-F"; f]) in
        let cmd := cmd ++ when_some (identity_file c) (fun f => ["-i"; f]) in
        match down_port_flag c with
        | Raise e => Raise e
        | Ok flag =>
            let cmd := cmd ++ flag in
            let cmd := cmd ++ [(remotename c ++ ":" ++ rf)%string] in
            let cmd := cmd ++ [lt] in
            Ok (Some (b_list cmd))
        end
      else Ok None
  | _, _ => Ok None
  end.

Definition scp_command (c : SSHConnection) (files : list string) (target : string)
    : result (list string) :=
  let cmd := ["/usr/bin/scp"; verbosity c; "-r"] in
  let files := b_list files in
  let cmd := cmd ++ when_some (configfile c) (fun f => ["-F"; f]) in
  let cmd := cmd ++ when_some (identity_file c) (fun f => ["-i"; f]) in
  let cmd := match port c with
             | Some p => if port_truthy (port c) then cmd ++ ["-P"; port_str p] else cmd
             | None => cmd
             end in
  let cmd := cmd ++ flat_map (fun option => ["-o"; option]) (options c) in
  if (length files <? 1)%nat then
    Raise (ValueError "You should name at least one file to copy")
  else
    let cmd := cmd ++ files in
    let cmd := cmd ++ [(remotename c ++ ":" ++ target)%string] in
    Ok (b_list cmd).

(** ** The operating system and the observable state *)

(** What becomes of a started child once [communicate] waits for it:
    it exits with its output and a return code, or the wait is cut short
    by an [IOError] (the alarm of [_timeout_handler], a broken pipe). *)
Inductive fate : Type :=
| Completed (out err : string) (returncode : Z)
| IOFailure (msg : string).

(** [subprocess.Popen] either fails to start the program or starts it. *)
Inductive spawn : Type :=
| SpawnFails (msg : string)
| Spawns (f : fate).

Record os : Type := {
  isfile : string -> bool;
  isdir : string -> bool;
  (** expansion of a path that starts with a tilde *)
  tilde : string -> string;
  getuser : string;
  (** the behaviour of the n-th child process started *)
  child : nat -> spawn
}.

Record process : Type := {
  argv : list string;
  auth_sock : option string;
  piped : bool
}.

Record Pipe : Type := { pid : nat; pipe_fate : fate }.

Record state : Type := {
  spawned : list process;
  fed : list (nat * string);
  killed : list nat;
  scratch : list (string * list (string * string));
  fresh : nat
}.

Definition initial : state :=
  {| spawned := []; fed := []; killed := []; scratch := []; fresh := 0 |}.

Definition M (A : Type) : Type := state -> result A * state.

Definition ret {A : Type} (a : A) : M A := fun st => (Ok a, st).

Definition raise {A : Type} (e : exn) : M A := fun st => (Raise e, st).

Definition bind {A B : Type} (m : M A) (k : A -> M B) : M B :=
  fun st =>
    match m st with
    | (Ok a, st') => k a st'
    | (Raise e, st') => (Raise e, st')
    end.

Definition lift {A : Type} (r : result A) : M A := fun st => (r, st).

Declare Scope py_scope.
Delimit Scope py_scope with py.
Notation "x <- m ;; k" := (bind m (fun x => k))
  (at level 61, m at next level, right associativity) : py_scope.
Notation "m ;; k" := (bind m (fun _ => k))
  (at level 61, right associativity) : py_scope.
Local Open Scope py_scope.

Record SSHResult : Type := {
  command : string;
  stdout : string;
  stderr : string;
  returncode : Z
}.

(** A source handed to [scp]: a file name, or a file-like object with
    an optional [name] attribute and the bytes [read] returns. *)
Inductive file_source : Type :=
| FileName (name : string)
| FileObject (name : option string) (content : string).

(** The [files] argument of [scp]: a list or tuple, or anything else. *)
Inductive files_arg : Type :=
| FileList (l : list file_source)
| NotAList (f : file_source).

Definition master_run_msg : string :=
  "This SSHConnection is an SSH master connection, no commands can be sent to the server on this SSHConnection.".
Definition master_scp_msg : string :=
  "This SSHConnection is an SSH master connection, no secure copying can be done over this SSHConnection.".
Definition files_type_msg : string :=
  "The files argument to scp() function must be a list or tuple".

(** ["%s (under %s): %s" % (' '.join(cmd), user, detail)].  A byte
    string is rendered by its content, as on Python 2 where it is a
    [str]; Python 3 renders it as [b'...']. *)
Definition client_error (cmd : list string) (who detail : string) : exn :=
  SSHError (Py.join " " cmd ++ " (under " ++ who ++ "): " ++ detail).

Section Machine.

Variable sys : os.

(** [os.path.expanduser]: a path without a leading tilde is returned
    as it is; an expansion that comes out empty is replaced by the
    root directory. *)
Definition expanduser (p : string) : string :=
  if Py.starts_with_tilde p then
    (if Py.truthy (tilde sys p) then tilde sys p else "/")
  else p.

(** [get_env]: the inherited environment, with [SSH_AUTH_SOCK]
    replaced when an agent socket was configured. *)
Definition get_env (c : SSHConnection) : option string :=
  if Py.truthy_opt (ssh_agent_socket c) then ssh_agent_socket c else None.

Definition Popen (cmd : list string) (env : option string) (with_pipes : bool) : M Pipe :=
  fun st =>
    let n := length (spawned st) in
    match child sys n with
    | SpawnFails msg => (Raise (OSError msg), st)
    | Spawns f =>
        (Ok {| pid := n; pipe_fate := f |},
         {| spawned := spawned st ++ [{| argv := cmd; auth_sock := env; piped := with_pipes |}];
            fed := fed st; killed := killed st;
            scratch := scratch st; fresh := fresh st |})
    end.

(** [pipe.communicate(input)] under the alarm. *)
Definition communicate (p : Pipe) (input : option string) : M fate :=
  fun st =>
    (Ok (pipe_fate p),
     {| spawned := spawned st;
        fed := match input with Some i => fed st ++ [(pid p, i)] | None => fed st end;
        killed := killed st; scratch := scratch st; fresh := fresh st |}).

(** [os.kill(pipe.pid, signal.SIGTERM)]. *)
Definition kill (p : Pipe) : M unit :=
  fun st =>
    (Ok tt,
     {| spawned := spawned st; fed := fed st; killed := killed st ++ [pid p];
        scratch := scratch st; fresh := fresh st |}).

(** [tempfile.mkdtemp()]. *)
Definition mkdtemp : M string :=
  fun st =>
    let d := ("/tmp/tmp" ++ Py.str_of_int (Z.of_nat (fresh st)))%string in
    (Ok d,
     {| spawned := spawned st; fed := fed st; killed := killed st;
        scratch := scratch st ++ [(d, [])]; fresh := S (fresh st) |}).

Definition add_entry (d path content : string)
    (dirs : list (string * list (string * string))) :=
  map (fun e => if String.eqb (fst e) d then (fst e, snd e ++ [(path, content)]) else e) dirs.

(** Writing [content] to the file [path] of the scratch directory [d]. *)
Definition write_file (d path content : string) : M unit :=
  fun st =>
    (Ok tt,
     {| spawned := spawned st; fed := fed st; killed := killed st;
        scratch := add_entry d path content (scratch st); fresh := fresh st |}).

(** [tempfile.mkstemp(dir=d)]: a new name inside [d]. *)
Definition mkstemp (d : string) : M string :=
  fun st =>
    (Ok (Py.path_join d ("tmp" ++ Py.str_of_int (Z.of_nat (fresh st)))),
     {| spawned := spawned st; fed := fed st; killed := killed st;
        scratch := scratch st; fresh := S (fresh st) |}).

(** [shutil.rmtree(d, ignore_errors=True)]. *)
Definition rmtree (d : string) : M unit :=
  fun st =>
    (Ok tt,
     {| spawned := spawned st; fed := fed st; killed := killed st;
        scratch := filter (fun e => negb (String.eqb (fst e) d)) (scratch st);
        fresh := fresh st |}).

Definition exists_dir (d : string) (st : state) : bool :=
  existsb (fun e => String.eqb (fst e) d) (scratch st).

(** *** [run] *)

Definition run (c : SSHConnection) (cmd : string) (interpreter : option string)
    (forward_ssh_agent : bool) (tunnels : list SSHTunnel) : M SSHResult :=
  if master c && negb (slave c) then raise (SSHError master_run_msg)
  else
    ssh_cmd <- lift (ssh_command c interpreter forward_ssh_agent false []) ;;
    pipe <- Popen ssh_cmd (get_env c) true ;;
    outcome <- communicate pipe (Some (b cmd)) ;;
    match outcome with
    | IOFailure exc =>
        kill pipe ;;
        raise (client_error (u_list ssh_cmd) (user c) exc)
    | Completed out err code =>
        if (code =? 255)%Z then
          raise (client_error (u_list ssh_cmd) (user c) (Py.strip err))
        else
          ret {| command := cmd; stdout := Py.strip out;
                 stderr := Py.strip err; returncode := code |}
    end.

Definition bash : option string := Some "/bin/bash".

(** *** [get_scp_targets] *)

Definition get_scp_targets (c : SSHConnection) (filenames : list string)
    (target : string) : M (list string) :=
  result <- run c (b ("test -d " ++ Py.quote (u target))) bash false [] ;;
  if (returncode result =? 0)%Z then
    ret (map (fun filename => Py.path_join target (Py.basename filename)) filenames)
  else
    ret [target].

(** *** [convert_files_to_filenames] *)

Fixpoint convert_loop (files : list file_source) (filenames : list string)
    (tmpdir : option string) : M (list string * option string) :=
  match files with
  | [] => ret (filenames, tmpdir)
  | FileName n :: rest => convert_loop rest (filenames ++ [n]) tmpdir
  | FileObject name content :: rest =>
      d <- match tmpdir with Some d => ret d | None => mkdtemp end ;;
      tmpname <- match name with
                 | Some n =>
                     let tmpname := Py.path_join d (Py.basename n) in
                     write_file d tmpname (b content) ;;
                     ret tmpname
                 | None =>
                     tmpname <- mkstemp d ;;
                     write_file d tmpname (b content) ;;
                     ret tmpname
                 end ;;
      convert_loop rest (filenames ++ [tmpname]) (Some d)
  end.

Definition convert_files_to_filenames (files : list file_source)
    : M (list string * option string) :=
  convert_loop files [] None.

(** *** [scp] *)

Definition cleanup_tmp_dir (tmpdir : option string) : M unit :=
  match tmpdir with
  | Some d => rmtree d
  | None => ret tt
  end.

(** One fixup command of [scp]: [chmod mode targets] or
    [chown owner targets], run through [run]. *)
Definition fixup (c : SSHConnection) (tmpdir : option string) (tool : string)
    (label : string) (value : option string) (targets : list string) : M unit :=
  match value with
  | Some v =>
      if Py.truthy v then
        let cmd_chunks := [tool; v] ++ targets in
        let cmd := b_quote cmd_chunks in
        result <- run c cmd bash false [] ;;
        if negb (returncode result =? 0)%Z then
          cleanup_tmp_dir tmpdir ;;
          raise (SSHError (label ++ Py.strip (stderr result)))
        else ret tt
      else ret tt
  | None => ret tt
  end.

Definition scp (c : SSHConnection) (files : files_arg) (target : string)
    (mode owner : option string) : M unit :=
  if master c && negb (slave c) then raise (SSHError master_scp_msg)
  else
    match files with
    | NotAList _ => raise (SSHError files_type_msg)
    | FileList files =>
        converted <- convert_files_to_filenames files ;;
        let filenames := fst converted in
        let tmpdir := snd converted in
        scp_cmd <- lift (scp_command c filenames target) ;;
        pipe <- Popen scp_cmd (get_env c) true ;;
        outcome <- communicate pipe None ;;
        match outcome with
        | IOFailure exc =>
            kill pipe ;;
            cleanup_tmp_dir tmpdir ;;
            raise (client_error (u_list scp_cmd) (user c) exc)
        | Completed _ err code =>
            if negb (code =? 0)%Z then
              cleanup_tmp_dir tmpdir ;;
              raise (client_error (u_list scp_cmd) (user c) (Py.strip err))
            else
              (if Py.truthy_opt mode || Py.truthy_opt owner then
                 targets <- get_scp_targets c filenames target ;;
                 fixup c tmpdir "chmod" "change mode: " mode targets ;;
                 fixup c tmpdir "chown" "change owner: " owner targets
               else ret tt) ;;
              cleanup_tmp_dir tmpdir
        end
    end.

(** *** [scp_down] *)

(** The body of [scp_down] uses [cleanup_tmp_dir], [filenames] and
    [target], none of which is bound in that method or in the module:
    evaluating the name raises [NameError]. *)
Definition scp_down (c : SSHConnection) (remotefile localtarget : option string)
    (mode owner : option string) : M unit :=
  scp_cmd <- lift (scp_down_command c remotefile localtarget) ;;
  match scp_cmd with
  | Some scp_cmd =>
      pipe <- Popen scp_cmd (get_env c) true ;;
      outcome <- communicate pipe None ;;
      match outcome with
      | IOFailure exc =>
          kill pipe ;;
          raise (NameError "cleanup_tmp_dir")
      | Completed _ err code =>
          if negb (code =? 0)%Z then
            raise (NameError "cleanup_tmp_dir")
          else if Py.truthy_opt mode || Py.truthy_opt owner then
            raise (NameError "filenames")
          else ret tt
      end
  | None => ret tt
  end.

End Machine.

(** ** Construction of a connection *)

Section Construction.

Variable sys : os.

Definition check_server (name : string) : M unit :=
  if negb (Py.ident_match name)
  then raise (SSHError "Server name contains illegal symbols")
  else ret tt.

Definition check_login (name : string) : M unit :=
  if negb (Py.ident_match name)
  then raise (SSHError "User login contains illegal symbols")
  else ret tt.

(** Returns the control path the object ends up with.  The path is
    always a string here, so the type test of the source succeeds. *)
Definition check_master_slave_settings (is_master is_slave : bool)
    (path : option string) : M (option string) :=
  (if is_master || is_slave then
     match path with
     | None =>
         raise (SSHError "SSHConnection needs a control path when run in master or slave mode.")
     | Some p =>
         if negb (isdir sys (Py.dirname p)) then
           raise (SSHError "SSHConnection expects that a directory for the control_path file already exists.")
         else ret tt
     end
   else ret tt) ;;
  match path with
  | Some p => if Py.truthy p then ret (Some (expanduser sys p)) else ret path
  | None => ret None
  end.

Definition __init__ (server : string) (login : option string)
    (port : option port_value) (configfile identity_file ssh_agent_socket : option string)
    (timeout : Z) (debug : bool) (options : list string)
    (master slave : bool) (control_path : option string) : M SSHConnection :=
  check_server server ;;
  control_path <- check_master_slave_settings master slave control_path ;;
  configfile <- match configfile with
                | Some f =>
                    if Py.truthy f then
                      let f := expanduser sys f in
                      if negb (isfile sys f)
                      then raise (SSHError ("Config file " ++ f ++ " is not found"))
                      else ret (Some f)
                    else ret None
                | None => ret None
                end ;;
  login <- (if negb slave then
              match login with
              | Some l => if Py.truthy l then check_login l ;; ret (Some (b l)) else ret None
              | None => ret None
              end
            else ret None) ;;
  identity_file <- (if negb slave then
                      match identity_file with
                      | Some f =>
                          if Py.truthy f then
                            let f := expanduser sys f in
                            if negb (isfile sys f)
                            then raise (SSHError ("Key file " ++ f ++ " is not found"))
                            else ret (Some f)
                          else ret None
                      | None => ret None
                      end
                    else ret None) ;;
  let ssh_agent_socket := if negb slave then ssh_agent_socket else None in
  let self :=
    {| server := server; port := port; timeout := timeout; user := getuser sys;
       debug := debug; master := master; control_path := control_path;
       slave := slave; configfile := configfile; login := login;
       identity_file := identity_file; ssh_agent_socket := ssh_agent_socket;
       options := options; master_ssh_pipe := None |} in
  if master then
    init_master_ssh_command <- lift (ssh_command self None false true []) ;;
    pipe <- Popen sys init_master_ssh_command (get_env self) false ;;
    ret {| server := server; port := port; timeout := timeout; user := getuser sys;
           debug := debug; master := master; control_path := control_path;
           slave := slave; configfile := configfile; login := login;
           identity_file := identity_file; ssh_agent_socket := ssh_agent_socket;
           options := options; master_ssh_pipe := Some (pid pipe) |}
  else ret self.

End Construction.

(** ** A test bench *)

Module Bench.

(** A machine on which the configuration file of the test suite and
    the directory of the control socket exist, and every child exits
    with the code the script gives for it (0 past its end). *)
Definition machine (codes : list Z) : os :=
  {| isfile := fun p => String.eqb p "ssh_config.test";
     isdir := fun p => String.eqb p "/tmp/ctl";
     tilde := fun p => p;
     getuser := "alice";
     child := fun n => Spawns (Completed "out" "err" (nth n codes 0%Z)) |}.

Definition connect (codes : list Z) (is_master is_slave : bool) : M SSHConnection :=
  __init__ (machine codes) "localhost" (Some "alice") None (Some "ssh_config.test")
    None None 60 false [] is_master is_slave
    (if is_master || is_slave then Some "/tmp/ctl/control_path.socket" else None).

(** The connections that [connect] yields for the four roles. *)
Definition conn (is_master is_slave : bool) : SSHConnection :=
  {| server := "localhost"; port := None; timeout := 60; user := "alice";
     debug := false; master := is_master;
     control_path :=
       if is_master || is_slave then Some "/tmp/ctl/control_path.socket" else None;
     slave := is_slave; configfile := Some "ssh_config.test";
     login := if is_slave then None else Some "alice";
     identity_file := None; ssh_agent_socket := None; options := [];
     master_ssh_pipe := if is_master then Some 0%nat else None |}.

Definition standalone : SSHConnection := conn false false.
Definition primary : SSHConnection := conn true false.
Definition secondary : SSHConnection := conn false true.
Definition primary_and_secondary : SSHConnection := conn true true.

(** The state right after a primary connection was built: its control
    process is running. *)
Definition control_process (c : SSHConnection) : process :=
  {| argv := ["/usr/bin/ssh"] ++ when_some (login c) (fun l => ["-l"; l]) ++
             ["-F"; "ssh_config.test"; "-N"; "-M"; "-S";
              "/tmp/ctl/control_path.socket"; "localhost"];
     auth_sock := None; piped := false |}.

Definition started (c : SSHConnection) : state :=
  {| spawned := if master c then [control_process c] else [];
     fed := []; killed := []; scratch := []; fresh := 0 |}.

End Bench.

(** ** Derived notions used in the statements *)

Definition primary_only (c : SSHConnection) : bool := master c && negb (slave c).

(** The processes a computation started, given the state it began in. *)
Definition started_by {A : Type} (st : state) (r : result A * state) : list process :=
  skipn (length (spawned st)) (spawned (snd r)).

Definition no_files_msg : string := "You should name at least one file to copy".

(** The fields of the object [__init__] returns, as a function of its
    arguments; [cp] is the control path as given and [handle] the
    control process, if one was started. *)
Definition stored (sys : os) (srv : string) (lg : option string)
    (prt : option port_value) (cf idf sock : option string) (tmo : Z) (dbg : bool)
    (opts : list string) (m s : bool) (cp : option string) (handle : option nat)
    : SSHConnection :=
  {| server := srv; port := prt; timeout := tmo; user := getuser sys;
     debug := dbg; master := m;
     control_path :=
       match cp with
       | Some p => if Py.truthy p then Some (expanduser sys p) else cp
       | None => None
       end;
     slave := s;
     configfile := if Py.truthy_opt cf then option_map (expanduser sys) cf else None;
     login := if negb s && Py.truthy_opt lg then lg else None;
     identity_file :=
       if negb s && Py.truthy_opt idf then option_map (expanduser sys) idf else None;
     ssh_agent_socket := if negb s then sock else None;
     options := opts; master_ssh_pipe := handle |}.

Definition includes_secondary (r : ConnectionRole) : bool :=
  match r with
  | Secondary | PrimaryAndSecondary => true
  | Standalone | Primary => false
  end.

(** The flags [ssh_command] puts after the login, configuration-file and
    identity-file flags. *)
Definition later_flags (c : SSHConnection) (interpreter : option string)
    (forward_ssh_agent init_master : bool) (tunnels : list SSHTunnel) : list string :=
  (if forward_ssh_agent then ["-A"] else []) ++
  (if port_truthy (port c) then
     match port c with Some p => ["-p"; port_str p] | None => [] end
   else []) ++
  (if is_none interpreter then ["-N"] else []) ++
  match control_path c with
  | Some cp =>
      (if master c && init_master then ["-M"; "-S"; cp] else []) ++
      (if slave c && negb init_master then ["-S"; cp] else [])
  | None => []
  end ++
  map tunnel_str tunnels ++
  flat_map (fun option => ["-o"; option]) (options c) ++
  [server c] ++
  when_some interpreter (fun i => [i]).

(** The exec command as section 4.4 of the specification words it: one
    fragment per flag, concatenated in the order the text lists them,
    behind the path of the client binary. *)
Definition buildExecCommand (c : SSHConnection) (interpreter : option string)
    (forwardAgent initMaster : bool) (tunnels : list SSHTunnel) : result (list string) :=
  if negb (Py.truthy_opt interpreter) && negb initMaster &&
     match tunnels with [] => true | _ => false end
  then Raise (SSHError no_interpreter_msg)
  else
    Ok (concat
          [ ["/usr/bin/ssh"];
            if debug c then ["-vvvv"] else [];
            when_some (login c) (fun l => ["-l"; l]);
            when_some (configfile c) (fun f => ["-F"; f]);
            when_some (identity_file c) (fun f => ["-i"; f]);
            if forwardAgent then ["-A"] else [];
            if port_truthy (port c)
            then match port c with Some p => ["-p"; port_str p] | None => [] end
            else [];
            if is_none interpreter then ["-N"] else [];
            match control_path c with
            | Some cp => if master c && initMaster then ["-M"; "-S"; cp] else []
            | None => []
            end;
            match control_path c with
            | Some cp => if slave c && negb initMaster then ["-S"; cp] else []
            | None => []
            end;
            map tunnel_str tunnels;
            flat_map (fun option => ["-o"; option]) (options c);
            [server c];
            when_some interpreter (fun i => [i]) ]).

Definition golden_vector : list string :=
  ["/usr/bin/ssh"; "-l"; "alice"; "-F"; "ssh_config.test"; "localhost"; "/bin/bash"].

(** ** Tunnel processes and the destructor *)







(** ** Reading a command line back *)

(** How a POSIX shell splits a line into words, for lines made of plain
    characters, blanks, single-quoted and double-quoted parts.  [word]
    is the word being read, if one has begun.  Lines that use any other
    shell syntax are not read ([None]). *)
Inductive quoting : Type := Bare | InSingle | InDouble.

Definition push (word : option string) (c : ascii) : option string :=
  Some (match word with Some w => w | None => EmptyString end ++ String c EmptyString)%string.

Definition begun (word : option string) : option string :=
  Some (match word with Some w => w | None => EmptyString end).

Definition flush (words : list string) (word : option string) : list string :=
  match word with Some w => words ++ [w] | None => words end.

Fixpoint sh_words (q : quoting) (word : option string) (words : list string)
    (line : string) : option (list string) :=
  match line with
  | EmptyString =>
      match q with Bare => Some (flush words word) | _ => None end
  | String c rest =>
      match q with
      | Bare =>
          if Ascii.eqb c " "%char then sh_words Bare None (flush words word) rest
          else if Ascii.eqb c "'"%char then sh_words InSingle (begun word) words rest
          else if Ascii.eqb c (ascii_of_nat 34) then sh_words InDouble (begun word) words rest
          else if Py.shell_safe c then sh_words Bare (push word c) words rest
          else None
      | InSingle =>
          if Ascii.eqb c "'"%char then sh_words Bare word words rest
          else sh_words InSingle (push word c) words rest
      | InDouble =>
          if Ascii.eqb c (ascii_of_nat 34) then sh_words Bare word words rest
          else if Py.one_of "\$`" c then None
          else sh_words InDouble (push word c) words rest
      end
  end.

Definition sh_split (line : string) : option (list string) :=
  sh_words Bare None [] line.

(** ** Machines that fail *)

Module Faults.

(** Every wait for a child is interrupted by the alarm. *)
Definition stalled : os :=
  {| isfile := fun p => String.eqb p "ssh_config.test";
     isdir := fun p => String.eqb p "/tmp/ctl";
     tilde := fun p => p;
     getuser := "alice";
     child := fun _ => Spawns (IOFailure "SSH connect timeout") |}.

(** No program can be started. *)
Definition broken : os :=
  {| isfile := fun p => String.eqb p "ssh_config.test";
     isdir := fun p => String.eqb p "/tmp/ctl";
     tilde := fun p => p;
     getuser := "alice";
     child := fun _ => SpawnFails "No such file or directory" |}.

End Faults.

(** ** Notions used in the further properties *)

(** The connection [c] with other pass-through options. *)
Definition with_options (c : SSHConnection) (opts : list string) : SSHConnection :=
  {| server := server c; port := port c; timeout := timeout c; user := user c;
     debug := debug c; master := master c; control_path := control_path c;
     slave := slave c; configfile := configfile c; login := login c;
     identity_file := identity_file c; ssh_agent_socket := ssh_agent_socket c;
     options := opts; master_ssh_pipe := master_ssh_pipe c |}.

(** A name the pattern [^[a-zA-Z0-9.\-_]+$] lets through: a non-empty
    run of letters, digits, dots, dashes and underscores, possibly
    followed by one newline. *)
Definition well_formed_name (name : string) : Prop :=
  exists body,
    body <> [] /\ forallb Py.ident_char body = true /\
    (list_ascii_of_string name = body \/
     list_ascii_of_string name = body ++ [Py.newline]).

(** A child started with pipes, as [run], [scp] and [run_tunnels] start
    them. *)
Definition transfer_process (c : SSHConnection) (cmd : list string) : process :=
  {| argv := cmd; auth_sock := get_env c; piped := true |}.

(** The scratch directories left after [cleanup_tmp_dir]. *)
Definition without_dir (td : option string) (dirs : list (string * list (string * string))) :=
  match td with
  | Some d => filter (fun e => negb (String.eqb (fst e) d)) dirs
  | None => dirs
  end.

(** The machine after a [run] that started its child and fed it [cmd]. *)
Definition after_run (c : SSHConnection) (ssh_cmd : list string) (cmd : string)
    (st : state) : state :=
  {| spawned := spawned st ++ [transfer_process c ssh_cmd];
     fed := fed st ++ [(length (spawned st), b cmd)];
     killed := killed st; scratch := scratch st; fresh := fresh st |}.

(** The targets [get_scp_targets] returns for a probe that exits with
    [code]. *)
Definition resolved (code : Z) (filenames : list string) (target : string) : list string :=
  if (code =? 0)%Z
  then map (fun filename => Py.path_join target (Py.basename filename)) filenames
  else [target].

Definition is_name (f : file_source) : bool :=
  match f with FileName _ => true | FileObject _ _ => false end.


(** * Properties *)

(** ** Examples *)

Example b_quote_chmod :
  b_quote ["chmod"; "0644"; "/tmp/my file"] = "chmod 0644 '/tmp/my file'".
Proof. reflexivity. Qed.

Example basename_ex : Py.basename "/tmp/dir/tests.py" = "tests.py".
Proof. reflexivity. Qed.

Example dirname_ex : Py.dirname "/tmp/dir/control.socket" = "/tmp/dir".
Proof. reflexivity. Qed.

Example path_join_ex : Py.path_join "/etc" "foo.txt" = "/etc/foo.txt".
Proof. reflexivity. Qed.

Example tunnel_str_ex :
  option_map tunnel_str
    (match new_tunnel SSHForwardingTunnel "localhost" 8080 "localhost" 80 with
     | Ok t => Some t | Raise _ => None end)
  = Some "-L localhost:8080:localhost:80".
Proof. reflexivity. Qed.

Example connect_roles codes :
  forall m s, Bench.connect codes m s initial = (Ok (Bench.conn m s), Bench.started (Bench.conn m s)).
Proof. intros [|] [|]; reflexivity. Qed.

(** ** Role guard *)

Lemma primary_only_role c : primary_only c = true <-> role c = Primary.
Proof.
  unfold primary_only, role, role_of.
  destruct (master c), (slave c); simpl; split; congruence.
Qed.

(** A primary-only connection refuses [run] and leaves the machine as it was. *)
Lemma run_primary_only sys c cmd interpreter fwd tunnels st :
  primary_only c = true ->
  run sys c cmd interpreter fwd tunnels st = (Raise (SSHError master_run_msg), st).
Proof.
  unfold primary_only, run. intros ->. reflexivity.
Qed.

(** A primary-only connection refuses [scp] and leaves the machine as it was. *)
Lemma scp_primary_only sys c files target mode owner st :
  primary_only c = true ->
  scp sys c files target mode owner st = (Raise (SSHError master_scp_msg), st).
Proof.
  unfold primary_only, scp. intros ->. reflexivity.
Qed.

(** [scp_down] has no such guard: whatever the role, a download with a
    remote file and a local target starts the transfer client. *)
Lemma scp_down_spawns sys c remotefile localtarget mode owner st cmd f :
  scp_down_command c remotefile localtarget = Ok (Some cmd) ->
  child sys (length (spawned st)) = Spawns f ->
  spawned (snd (scp_down sys c remotefile localtarget mode owner st)) =
  spawned st ++ [{| argv := cmd; auth_sock := get_env c; piped := true |}].
Proof.
  intros Hcmd Hchild.
  unfold scp_down, bind, lift, Popen, communicate, kill, raise, ret.
  rewrite Hcmd, Hchild. simpl.
  destruct f as [out err code | msg]; simpl; [|reflexivity].
  destruct (code =? 0)%Z; simpl; [|reflexivity].
  destruct (Py.truthy_opt mode || Py.truthy_opt owner); reflexivity.
Qed.

(** C1 (evaluation at the failing input): on a primary-only connection,
    [scp_down] of [remote.txt] to [/tmp/local.txt] raises nothing and
    starts [/usr/bin/scp] next to the control process, whereas [run] and
    [scp] on the same connection raise [SSHError] and start nothing. *)
Theorem scp_down_primary_only_starts_transfer :
  let sys := Bench.machine [] in
  let c := Bench.primary in
  let st := Bench.started c in
  role c = Primary /\
  run sys c "whoami" bash false [] st = (Raise (SSHError master_run_msg), st) /\
  scp sys c (FileList [FileName "/tmp/1.txt"]) "/tmp" None None st
    = (Raise (SSHError master_scp_msg), st) /\
  fst (scp_down sys c (Some "remote.txt") (Some "/tmp/local.txt") None None st) = Ok tt /\
  map argv (spawned (snd (scp_down sys c (Some "remote.txt") (Some "/tmp/local.txt") None None st)))
    = map argv (spawned st) ++
      [["/usr/bin/scp"; "-q"; "-r"; "-F"; "ssh_config.test";
        "alice@localhost:remote.txt"; "/tmp/local.txt"]].
Proof.
  cbv zeta. repeat split.
Qed.

(** ** Return codes of [run] *)

Lemma run_completed sys c cmd interpreter fwd tunnels st ssh_cmd out err code :
  primary_only c = false ->
  ssh_command c interpreter fwd false [] = Ok ssh_cmd ->
  child sys (length (spawned st)) = Spawns (Completed out err code) ->
  run sys c cmd interpreter fwd tunnels st =
  (if (code =? 255)%Z
   then Raise (client_error (u_list ssh_cmd) (user c) (Py.strip err))
   else Ok {| command := cmd; stdout := Py.strip out;
              stderr := Py.strip err; returncode := code |},
   {| spawned := spawned st ++
                 [{| argv := ssh_cmd; auth_sock := get_env c; piped := true |}];
      fed := fed st ++ [(length (spawned st), b cmd)];
      killed := killed st; scratch := scratch st; fresh := fresh st |}).
Proof.
  unfold primary_only. intros Hrole Hcmd Hchild.
  unfold run, bind, lift, Popen, communicate, raise, ret.
  rewrite Hrole, Hcmd, Hchild. simpl.
  destruct (code =? 255)%Z; reflexivity.
Qed.

(** C3: when the exec child of [run] completes, return code 255 makes
    [run] raise [SSHError], and every other return code, zero or not,
    makes it return an [SSHResult] that carries exactly that code. *)
Theorem run_returncode_policy sys c cmd interpreter fwd tunnels st ssh_cmd out err code :
  primary_only c = false ->
  ssh_command c interpreter fwd false [] = Ok ssh_cmd ->
  child sys (length (spawned st)) = Spawns (Completed out err code) ->
  (code = 255%Z ->
     exists msg, fst (run sys c cmd interpreter fwd tunnels st) = Raise (SSHError msg)) /\
  (code <> 255%Z ->
     fst (run sys c cmd interpreter fwd tunnels st) =
     Ok {| command := cmd; stdout := Py.strip out;
           stderr := Py.strip err; returncode := code |}).
Proof.
  intros Hrole Hcmd Hchild.
  rewrite (run_completed _ _ _ _ _ _ _ _ _ _ _ Hrole Hcmd Hchild).
  split; intro Hcode.
  - subst code. simpl. unfold client_error. eauto.
  - apply Z.eqb_neq in Hcode. rewrite Hcode. reflexivity.
Qed.

Lemma run_returncode_policy_witness :
  (exists msg,
     fst (run (Bench.machine [255%Z]) Bench.standalone "whoami" bash false [] initial)
     = Raise (SSHError msg)) /\
  fst (run (Bench.machine [3%Z]) Bench.standalone "exit 3" bash false [] initial)
  = Ok {| command := "exit 3"; stdout := "out"; stderr := "err"; returncode := 3 |}.
Proof.
  split.
  - apply (run_returncode_policy (Bench.machine [255%Z]) Bench.standalone "whoami"
             bash false [] initial
             ["/usr/bin/ssh"; "-l"; "alice"; "-F"; "ssh_config.test"; "localhost"; "/bin/bash"]
             "out" "err" 255); reflexivity.
  - apply (run_returncode_policy (Bench.machine [3%Z]) Bench.standalone "exit 3"
             bash false [] initial
             ["/usr/bin/ssh"; "-l"; "alice"; "-F"; "ssh_config.test"; "localhost"; "/bin/bash"]
             "out" "err" 3); [reflexivity | reflexivity | reflexivity | discriminate].
Defined.

(** ** The [tunnels] argument of [run] *)

Lemma skipn_app_exact {A : Type} (l k : list A) : skipn (length l) (l ++ k) = k.
Proof. induction l; simpl; auto. Qed.

Lemma skipn_exact {A : Type} (l : list A) : skipn (length l) l = [].
Proof. induction l; simpl; auto. Qed.

Lemma run_started sys c cmd interpreter fwd tunnels st p :
  In p (started_by st (run sys c cmd interpreter fwd tunnels st)) ->
  ssh_command c interpreter fwd false [] = Ok (argv p).
Proof.
  unfold started_by, run, bind, lift, Popen, communicate, kill, raise, ret.
  destruct (master c && negb (slave c)); simpl.
  { rewrite skipn_exact. intros []. }
  destruct (ssh_command c interpreter fwd false []) as [ssh_cmd | e]; simpl.
  2: { rewrite skipn_exact. intros []. }
  destruct (child sys (length (spawned st))) as [msg | f]; simpl.
  { rewrite skipn_exact. intros []. }
  assert (Hone : forall q, In p (skipn (length (spawned st)) (spawned st ++ [q])) ->
                           p = q).
  { intros q. rewrite skipn_app_exact. simpl. intros [H | []]. auto. }
  destruct f as [out err code | msg]; simpl.
  - destruct (code =? 255)%Z; simpl; intros H; apply Hone in H; subst p; reflexivity.
  - intros H; apply Hone in H; subst p; reflexivity.
Qed.

(** C8: [run] hands [ssh_command] an empty tunnel list.  Its [tunnels]
    argument changes neither the result nor the machine, and the command
    of every process [run] starts is the one [ssh_command] builds
    without tunnels. *)
Theorem run_ignores_tunnels sys c cmd interpreter fwd (tunnels : list SSHTunnel) st :
  run sys c cmd interpreter fwd tunnels st = run sys c cmd interpreter fwd [] st /\
  forall p, In p (started_by st (run sys c cmd interpreter fwd tunnels st)) ->
            ssh_command c interpreter fwd false [] = Ok (argv p).
Proof.
  split.
  - reflexivity.
  - intros p. apply run_started.
Qed.

(** With a tunnel passed to [run], the command started is still the
    plain one, while [ssh_command] given the same tunnel would carry it. *)
Example run_with_tunnel :
  let t := {| tunnel_cls := SSHForwardingTunnel; local_addr := "localhost";
              local_port := 8080; remote_addr := "localhost"; remote_port := 80 |} in
  map argv (spawned (snd (run (Bench.machine []) Bench.standalone "sleep 60" bash false [t] initial)))
  = [["/usr/bin/ssh"; "-l"; "alice"; "-F"; "ssh_config.test"; "localhost"; "/bin/bash"]] /\
  ssh_command Bench.standalone bash false false [t]
  = Ok ["/usr/bin/ssh"; "-l"; "alice"; "-F"; "ssh_config.test";
        "-L localhost:8080:localhost:80"; "localhost"; "/bin/bash"].
Proof. split; reflexivity. Qed.

(** ** Downloads *)

(** C10: when the remote file or the local target is empty or [None],
    [scp_down_command] returns [None] and [scp_down] returns normally
    with the machine untouched: nothing is started, nothing is raised. *)
Theorem scp_down_skips_empty sys c remotefile localtarget mode owner st :
  Py.truthy_opt remotefile = false \/ Py.truthy_opt localtarget = false ->
  scp_down_command c remotefile localtarget = Ok None /\
  scp_down sys c remotefile localtarget mode owner st = (Ok tt, st).
Proof.
  intros H.
  assert (Hcmd : scp_down_command c remotefile localtarget = Ok None).
  { unfold scp_down_command.
    destruct remotefile as [rf|], localtarget as [lt|]; simpl in *; try reflexivity.
    destruct H as [H | H]; rewrite H; simpl; try reflexivity.
    rewrite andb_false_r. reflexivity. }
  split; [exact Hcmd|].
  unfold scp_down, bind, lift. rewrite Hcmd. reflexivity.
Qed.

Lemma scp_down_skips_empty_witness :
  scp_down_command Bench.primary (Some EmptyString) (Some "/tmp/local.txt") = Ok None /\
  scp_down (Bench.machine []) Bench.primary (Some EmptyString) (Some "/tmp/local.txt")
    (Some "0644") None (Bench.started Bench.primary)
  = (Ok tt, Bench.started Bench.primary).
Proof.
  apply (scp_down_skips_empty (Bench.machine []) Bench.primary (Some EmptyString)
           (Some "/tmp/local.txt") (Some "0644") None (Bench.started Bench.primary)).
  left. reflexivity.
Defined.

(** C9: once [scp_down] has started its transfer child, every branch
    that would clean up or fix up ends in a [NameError]: a child that
    exits 0 with a mode or an owner given fails on [filenames], a child
    that exits non-zero or whose wait is interrupted fails on
    [cleanup_tmp_dir].  No [SSHError] comes out of these branches, and
    the transfer child is the only process started, so no [chmod] or
    [chown] is ever run. *)
Theorem scp_down_name_errors sys c remotefile localtarget mode owner st cmd :
  scp_down_command c remotefile localtarget = Ok (Some cmd) ->
  (forall out err,
     child sys (length (spawned st)) = Spawns (Completed out err 0) ->
     Py.truthy_opt mode || Py.truthy_opt owner = true ->
     fst (scp_down sys c remotefile localtarget mode owner st) = Raise (NameError "filenames")) /\
  (forall out err code,
     child sys (length (spawned st)) = Spawns (Completed out err code) ->
     code <> 0%Z ->
     fst (scp_down sys c remotefile localtarget mode owner st)
     = Raise (NameError "cleanup_tmp_dir")) /\
  (forall msg,
     child sys (length (spawned st)) = Spawns (IOFailure msg) ->
     fst (scp_down sys c remotefile localtarget mode owner st)
     = Raise (NameError "cleanup_tmp_dir")) /\
  (forall f,
     child sys (length (spawned st)) = Spawns f ->
     started_by st (scp_down sys c remotefile localtarget mode owner st)
     = [{| argv := cmd; auth_sock := get_env c; piped := true |}]).
Proof.
  intros Hcmd. repeat split.
  - intros out err Hchild Hfix.
    unfold scp_down, bind, lift, Popen, communicate, raise, ret.
    rewrite Hcmd, Hchild. simpl. rewrite Hfix. reflexivity.
  - intros out err code Hchild Hcode.
    unfold scp_down, bind, lift, Popen, communicate, raise, ret.
    rewrite Hcmd, Hchild. simpl.
    apply Z.eqb_neq in Hcode. rewrite Hcode. reflexivity.
  - intros msg Hchild.
    unfold scp_down, bind, lift, Popen, communicate, kill, raise, ret.
    rewrite Hcmd, Hchild. reflexivity.
  - intros f Hchild. unfold started_by.
    rewrite (scp_down_spawns _ _ _ _ _ _ _ _ _ Hcmd Hchild).
    apply skipn_app_exact.
Qed.

Lemma scp_down_name_errors_witness :
  fst (scp_down (Bench.machine [0%Z]) Bench.standalone (Some "remote.txt")
         (Some "/tmp/local.txt") (Some "0644") None initial)
  = Raise (NameError "filenames") /\
  fst (scp_down (Bench.machine [1%Z]) Bench.standalone (Some "remote.txt")
         (Some "/tmp/local.txt") None None initial)
  = Raise (NameError "cleanup_tmp_dir").
Proof.
  split.
  - apply (scp_down_name_errors (Bench.machine [0%Z]) Bench.standalone (Some "remote.txt")
             (Some "/tmp/local.txt") (Some "0644") None initial
             ["/usr/bin/scp"; "-q"; "-r"; "-F"; "ssh_config.test";
              "alice@localhost:remote.txt"; "/tmp/local.txt"] eq_refl)
      with (out := "out") (err := "err"); reflexivity.
  - apply (scp_down_name_errors (Bench.machine [1%Z]) Bench.standalone (Some "remote.txt")
             (Some "/tmp/local.txt") None None initial
             ["/usr/bin/scp"; "-q"; "-r"; "-F"; "ssh_config.test";
              "alice@localhost:remote.txt"; "/tmp/local.txt"] eq_refl)
      with (out := "out") (err := "err") (code := 1%Z); [reflexivity | discriminate].
Defined.

(** ** Empty file lists *)

(** C7 (evaluation at the failing input): with an empty file list
    [scp_command] raises [ValueError], which is not an [SSHError]; called
    through [scp] on a connection that may transfer, the same
    [ValueError] reaches the caller, before any process is started. *)
Theorem scp_command_empty_files_value_error sys c target mode owner st :
  scp_command c [] target = Raise (ValueError no_files_msg) /\
  scp sys c (FileList []) target mode owner st =
  (Raise (if primary_only c then SSHError master_scp_msg else ValueError no_files_msg), st).
Proof.
  split.
  - reflexivity.
  - unfold scp, primary_only. destruct (master c && negb (slave c)); reflexivity.
Qed.

(** ** What the constructor stores *)

Lemma expanduser_truthy sys p : Py.truthy p = true -> Py.truthy (expanduser sys p) = true.
Proof.
  intros H. unfold expanduser.
  destruct (Py.starts_with_tilde p); [|exact H].
  destruct (Py.truthy (tilde sys p)) eqn:E; [exact E | reflexivity].
Qed.

Lemma bind_inv {A B : Type} (m : M A) (k : A -> M B) st r st' :
  bind m k st = (r, st') ->
  (exists e, m st = (Raise e, st') /\ r = Raise e) \/
  (exists a st1, m st = (Ok a, st1) /\ k a st1 = (r, st')).
Proof.
  unfold bind. destruct (m st) as [[a | e] st1].
  - intros H. right. eauto.
  - intros H. injection H as <- <-. left. eauto.
Qed.

(** Case analysis on one stage of a computation, recorded in [H]. *)
Ltac crack H :=
  repeat (match type of H with
          | context [match ?o with Some _ => _ | None => _ end] => is_var o; destruct o
          | context [if ?x then _ else _] => destruct x eqn:?
          end; cbn -[ssh_command get_env] in H).

Ltac use_eqs :=
  repeat match goal with
         | H : ?x = true |- context [?x] => rewrite H
         | H : ?x = false |- context [?x] => rewrite H
         end.

Ltac close_stage Hm :=
  try discriminate Hm; injection Hm as <- <-;
  repeat match goal with
         | H : negb _ = false |- _ => apply negb_false_iff in H
         end;
  unfold b in *; cbn; use_eqs; cbn;
  repeat split; try reflexivity; intros; try congruence; eauto.

(** What [__init__] does, stage by stage: a failure leaves the machine
    as it was; a success stores the fields of [stored], each of them
    checked, and starts the control process when [master] is set. *)
Lemma init_outcome sys srv lg prt cf idf sock tmo dbg opts m s cp st r st' :
  __init__ sys srv lg prt cf idf sock tmo dbg opts m s cp st = (r, st') ->
  match r with
  | Raise _ => st' = st
  | Ok c =>
      c = stored sys srv lg prt cf idf sock tmo dbg opts m s cp (master_ssh_pipe c) /\
      Py.ident_match srv = true /\
      (forall l, login c = Some l -> Py.ident_match l = true) /\
      (forall f, configfile c = Some f -> isfile sys f = true) /\
      (forall f, identity_file c = Some f -> isfile sys f = true) /\
      (m || s = true ->
       exists p, cp = Some p /\ isdir sys (Py.dirname p) = true) /\
      (m = false -> st' = st /\ master_ssh_pipe c = None) /\
      (m = true ->
       master_ssh_pipe c = Some (length (spawned st)) /\
       exists init_master_ssh_command,
         ssh_command c None false true [] = Ok init_master_ssh_command /\
         st' = {| spawned := spawned st ++
                             [{| argv := init_master_ssh_command;
                                 auth_sock := get_env c; piped := false |}];
                  fed := fed st; killed := killed st;
                  scratch := scratch st; fresh := fresh st |})
  end.
Proof.
  unfold __init__. intros H.
  (* check_server *)
  apply bind_inv in H. destruct H as [[e [Hm ->]] | [[] [st1 [Hm H]]]].
  { unfold check_server, raise, ret in Hm. crack Hm;
      first [discriminate Hm | injection Hm as _ <-; reflexivity]. }
  assert (Hsrv : st1 = st /\ Py.ident_match srv = true).
  { clear - Hm. unfold check_server, raise, ret in Hm. crack Hm;
      try discriminate Hm; injection Hm as <-.
    match goal with H : negb _ = false |- _ => apply negb_false_iff in H end.
    auto. }
  destruct Hsrv as [-> Hsrv]. clear Hm.
  (* check_master_slave_settings *)
  apply bind_inv in H. destruct H as [[e [Hm ->]] | [cp' [st1 [Hm H]]]].
  { unfold check_master_slave_settings, bind, raise, ret in Hm. crack Hm;
      first [discriminate Hm | injection Hm as _ <-; reflexivity]. }
  assert (Hcp : st1 = st /\
                cp' = match cp with
                      | Some p => if Py.truthy p then Some (expanduser sys p) else cp
                      | None => None
                      end /\
                (m || s = true -> exists p, cp = Some p /\ isdir sys (Py.dirname p) = true)).
  { clear - Hm. unfold check_master_slave_settings, bind, raise, ret in Hm. crack Hm; close_stage Hm. }
  destruct Hcp as [-> [Hcp' Hdir]]. clear Hm.
  (* configfile *)
  apply bind_inv in H. destruct H as [[e [Hm ->]] | [cf' [st1 [Hm H]]]].
  { unfold raise, ret in Hm. crack Hm;
      first [discriminate Hm | injection Hm as _ <-; reflexivity]. }
  assert (Hcf : st1 = st /\
                cf' = (if Py.truthy_opt cf then option_map (expanduser sys) cf else None) /\
                (forall f, cf' = Some f -> isfile sys f = true)).
  { clear - Hm. unfold raise, ret in Hm. crack Hm; close_stage Hm. }
  destruct Hcf as [-> [Hcf' Hcfile]]. clear Hm.
  (* login *)
  apply bind_inv in H. destruct H as [[e [Hm ->]] | [lg' [st1 [Hm H]]]].
  { unfold bind, check_login, raise, ret in Hm. crack Hm;
      first [discriminate Hm | injection Hm as _ <-; reflexivity]. }
  assert (Hlg : st1 = st /\
                lg' = (if negb s && Py.truthy_opt lg then lg else None) /\
                (forall l, lg' = Some l -> Py.ident_match l = true)).
  { clear - Hm. unfold bind, check_login, raise, ret in Hm. crack Hm; close_stage Hm. }
  destruct Hlg as [-> [Hlg' Hlogin]]. clear Hm.
  (* identity file *)
  apply bind_inv in H. destruct H as [[e [Hm ->]] | [idf' [st1 [Hm H]]]].
  { unfold raise, ret in Hm. crack Hm;
      first [discriminate Hm | injection Hm as _ <-; reflexivity]. }
  assert (Hidf : st1 = st /\
                 idf' = (if negb s && Py.truthy_opt idf
                         then option_map (expanduser sys) idf else None) /\
                 (forall f, idf' = Some f -> isfile sys f = true)).
  { clear - Hm. unfold raise, ret in Hm. crack Hm; close_stage Hm. }
  destruct Hidf as [-> [Hidf' Hifile]]. clear Hm.
  (* control process *)
  cbv zeta in H.
  destruct m.
  - apply bind_inv in H. destruct H as [[e [Hm ->]] | [cmd [st1 [Hm H]]]].
    { unfold lift in Hm. congruence. }
    unfold lift in Hm.
    match type of Hm with
    | (?x, _) = _ =>
        assert (Hcmd : x = Ok cmd) by congruence;
        assert (Hst : st1 = st) by congruence
    end.
    clear Hm. subst st1.
    apply bind_inv in H. destruct H as [[e [Hm ->]] | [pipe [st1 [Hm H]]]].
    { unfold Popen in Hm. destruct (child sys (length (spawned st)));
        [injection Hm as _ <-; reflexivity | discriminate Hm]. }
    unfold Popen in Hm. destruct (child sys (length (spawned st))) as [msg | f];
      [discriminate Hm|].
    injection Hm as <- <-. unfold ret in H. injection H as <- <-.
    cbn [login configfile identity_file master_ssh_pipe pid].
    subst cp' cf' lg' idf'.
    split; [reflexivity|]. split; [exact Hsrv|].
    split; [exact Hlogin|]. split; [exact Hcfile|]. split; [exact Hifile|].
    split; [exact Hdir|]. split; [discriminate|].
    intros _. split; [reflexivity|].
    exists cmd. split; [exact Hcmd | reflexivity].
  - unfold ret in H. injection H as <- <-.
    cbn [login configfile identity_file master_ssh_pipe].
    subst cp' cf' lg' idf'.
    split; [reflexivity|]. split; [exact Hsrv|].
    split; [exact Hlogin|]. split; [exact Hcfile|]. split; [exact Hifile|].
    split; [exact Hdir|]. split; [intros _; split; reflexivity|]. discriminate.
Qed.

Lemma init_stores sys srv lg prt cf idf sock tmo dbg opts m s cp st c st' :
  __init__ sys srv lg prt cf idf sock tmo dbg opts m s cp st = (Ok c, st') ->
  c = stored sys srv lg prt cf idf sock tmo dbg opts m s cp (master_ssh_pipe c).
Proof.
  intros H. apply init_outcome in H. apply H.
Qed.

(** ** Login and identity-file flags *)

Lemma includes_secondary_role_of m s : includes_secondary (role_of m s) = s.
Proof. destruct m, s; reflexivity. Qed.

Lemma b_list_id l : b_list l = l.
Proof. unfold b_list, b. apply map_id. Qed.

Lemma ssh_command_shape c interpreter fwd init_master tunnels cmd :
  ssh_command c interpreter fwd init_master tunnels = Ok cmd ->
  cmd = "/usr/bin/ssh" :: (if debug c then ["-vvvv"] else []) ++
        when_some (login c) (fun l => ["-l"; l]) ++
        when_some (configfile c) (fun f => ["-F"; f]) ++
        when_some (identity_file c) (fun f => ["-i"; f]) ++
        later_flags c interpreter fwd init_master tunnels.
Proof.
  unfold ssh_command, later_flags.
  destruct (negb (Py.truthy_opt interpreter) && negb init_master &&
            match tunnels with [] => true | _ :: _ => false end); [discriminate|].
  intros H. injection H as <-. rewrite b_list_id. unfold b.
  destruct (port c) as [p|]; [destruct (port_truthy (Some p))|];
    destruct (debug c), fwd, (is_none interpreter), (control_path c) as [cp|];
    try destruct (master c && init_master);
    try destruct (slave c && negb init_master);
    simpl; repeat rewrite <- app_assoc; simpl; reflexivity.
Qed.

(** C4 (as the code has it): for a connection built by the constructor
    and any call of [ssh_command] other than the init-master call of a
    connection that is both master and slave, the argument vector is
    exactly: the client binary, the verbose flag, the login flag, the
    configuration-file flag, the identity-file flag, and then the flags
    of the same call on a connection built without login and identity
    file.  The login flag is the pair [-l login] when a login was given
    and the role does not include Secondary (standalone or
    primary-only), and is empty otherwise; the identity-file flag is
    the pair [-i file] under the same condition on the identity file,
    and is empty otherwise. *)
Theorem login_and_identity_flags
    sys srv lg prt cf idf sock tmo dbg opts m s cp st c st'
    interpreter fwd init_master tunnels cmd :
  __init__ sys srv lg prt cf idf sock tmo dbg opts m s cp st = (Ok c, st') ->
  init_master && (m && s) = false ->
  ssh_command c interpreter fwd init_master tunnels = Ok cmd ->
  let login_flag :=
    if Py.truthy_opt lg && negb (includes_secondary (role_of m s))
    then match lg with Some l => ["-l"; l] | None => [] end
    else [] in
  let identity_flag :=
    if Py.truthy_opt idf && negb (includes_secondary (role_of m s))
    then match idf with Some f => ["-i"; expanduser sys f] | None => [] end
    else [] in
  cmd = "/usr/bin/ssh" :: (if dbg then ["-vvvv"] else []) ++
        login_flag ++
        when_some (if Py.truthy_opt cf then option_map (expanduser sys) cf else None)
          (fun f => ["-F"; f]) ++
        identity_flag ++
        later_flags (stored sys srv None prt cf None sock tmo dbg opts m s cp None)
          interpreter fwd init_master tunnels /\
  (login_flag <> [] <->
     Py.truthy_opt lg = true /\ includes_secondary (role_of m s) = false) /\
  (identity_flag <> [] <->
     Py.truthy_opt idf = true /\ includes_secondary (role_of m s) = false) /\
  ssh_command (stored sys srv None prt cf None sock tmo dbg opts m s cp None)
    interpreter fwd init_master tunnels
  = Ok ("/usr/bin/ssh" :: (if dbg then ["-vvvv"] else []) ++
        when_some (if Py.truthy_opt cf then option_map (expanduser sys) cf else None)
          (fun f => ["-F"; f]) ++
        later_flags (stored sys srv None prt cf None sock tmo dbg opts m s cp None)
          interpreter fwd init_master tunnels).
Proof.
  intros Hinit _ Hcmd.
  assert (Hbare : ssh_command (stored sys srv None prt cf None sock tmo dbg opts m s cp None)
                    interpreter fwd init_master tunnels
                  = Ok ("/usr/bin/ssh" :: (if dbg then ["-vvvv"] else []) ++
                        when_some (if Py.truthy_opt cf
                                   then option_map (expanduser sys) cf else None)
                          (fun f => ["-F"; f]) ++
                        later_flags
                          (stored sys srv None prt cf None sock tmo dbg opts m s cp None)
                          interpreter fwd init_master tunnels)).
  { destruct (ssh_command (stored sys srv None prt cf None sock tmo dbg opts m s cp None)
                interpreter fwd init_master tunnels) as [bare | e] eqn:E.
    - apply ssh_command_shape in E. rewrite E.
      cbn [stored debug login configfile identity_file].
      rewrite andb_false_r. reflexivity.
    - exfalso. revert E Hcmd. unfold ssh_command.
      destruct (negb (Py.truthy_opt interpreter) && negb init_master &&
                match tunnels with [] => true | _ :: _ => false end); discriminate. }
  apply init_stores in Hinit. apply ssh_command_shape in Hcmd.
  rewrite includes_secondary_role_of.
  assert (Hdbg : debug c = dbg) by (rewrite Hinit; reflexivity).
  assert (Hlg : login c = if negb s && Py.truthy_opt lg then lg else None)
    by (rewrite Hinit; reflexivity).
  assert (Hcf : configfile c =
                if Py.truthy_opt cf then option_map (expanduser sys) cf else None)
    by (rewrite Hinit; reflexivity).
  assert (Hidf : identity_file c =
                 if negb s && Py.truthy_opt idf then option_map (expanduser sys) idf else None)
    by (rewrite Hinit; reflexivity).
  assert (Hlater : later_flags c interpreter fwd init_master tunnels =
                   later_flags (stored sys srv None prt cf None sock tmo dbg opts m s cp None)
                     interpreter fwd init_master tunnels)
    by (rewrite Hinit; reflexivity).
  rewrite Hdbg, Hlg, Hcf, Hidf, Hlater in Hcmd. clear Hinit Hdbg Hlg Hcf Hidf Hlater.
  cbv zeta. split; [|split; [|split; [|exact Hbare]]].
  - rewrite Hcmd. do 2 f_equal.
    assert (E1 : when_some (if negb s && Py.truthy_opt lg then lg else None)
                   (fun l => ["-l"; l])
                 = if Py.truthy_opt lg && negb s
                   then match lg with Some l => ["-l"; l] | None => [] end
                   else []).
    { destruct s, lg as [l|]; simpl; try reflexivity.
      - rewrite andb_false_r. reflexivity.
      - rewrite andb_true_r. destruct (Py.truthy l) eqn:E; simpl; rewrite ?E; reflexivity. }
    assert (E2 : when_some (if negb s && Py.truthy_opt idf
                            then option_map (expanduser sys) idf else None)
                   (fun f => ["-i"; f])
                 = if Py.truthy_opt idf && negb s
                   then match idf with Some f => ["-i"; expanduser sys f] | None => [] end
                   else []).
    { destruct s, idf as [f|]; simpl; try reflexivity.
      - rewrite andb_false_r. reflexivity.
      - rewrite andb_true_r. destruct (Py.truthy f) eqn:E; simpl; [|reflexivity].
        rewrite (expanduser_truthy sys f E). reflexivity. }
    rewrite E1, E2. reflexivity.
  - destruct s, lg as [l|]; simpl; rewrite ?andb_false_r, ?andb_true_r;
      try (split; [congruence | intros [H1 H2]; discriminate]).
    destruct (Py.truthy l); split; try congruence; try discriminate; auto.
    intros [H1 H2]; discriminate.
  - destruct s, idf as [f|]; simpl; rewrite ?andb_false_r, ?andb_true_r;
      try (split; [congruence | intros [H1 H2]; discriminate]).
    destruct (Py.truthy f); split; try congruence; try discriminate; auto.
    intros [H1 H2]; discriminate.
Qed.

Lemma login_and_identity_flags_witness :
  (let login_flag :=
    if Py.truthy_opt (Some "alice") && negb (includes_secondary (role_of false false))
    then match (Some "alice") with Some l => ["-l"; l] | None => [] end
    else [] in
  let identity_flag :=
    if Py.truthy_opt None && negb (includes_secondary (role_of false false))
    then match None with Some f => ["-i"; expanduser (Bench.machine []) f] | None => [] end
    else [] in
  golden_vector = "/usr/bin/ssh" :: (if false then ["-vvvv"] else []) ++
        login_flag ++
        when_some (if Py.truthy_opt (Some "ssh_config.test") then option_map (expanduser (Bench.machine [])) (Some "ssh_config.test") else None)
          (fun f => ["-F"; f]) ++
        identity_flag ++
        later_flags (stored (Bench.machine []) "localhost" None None (Some "ssh_config.test") None None 60 false [] false false None None)
          bash false false [] /\
  (login_flag <> [] <->
     Py.truthy_opt (Some "alice") = true /\ includes_secondary (role_of false false) = false) /\
  (identity_flag <> [] <->
     Py.truthy_opt None = true /\ includes_secondary (role_of false false) = false) /\
   ssh_command (stored (Bench.machine []) "localhost" None None (Some "ssh_config.test") None
                  None 60 false [] false false None None) bash false false []
   = Ok ("/usr/bin/ssh" :: (if false then ["-vvvv"] else []) ++
         when_some (if Py.truthy_opt (Some "ssh_config.test")
                    then option_map (expanduser (Bench.machine [])) (Some "ssh_config.test")
                    else None)
           (fun f => ["-F"; f]) ++
         later_flags (stored (Bench.machine []) "localhost" None None (Some "ssh_config.test")
                        None None 60 false [] false false None None)
           bash false false [])) /\
  (let login_flag :=
    if Py.truthy_opt (Some "alice") && negb (includes_secondary (role_of true true))
    then match (Some "alice") with Some l => ["-l"; l] | None => [] end
    else [] in
  let identity_flag :=
    if Py.truthy_opt None && negb (includes_secondary (role_of true true))
    then match None with Some f => ["-i"; expanduser (Bench.machine []) f] | None => [] end
    else [] in
  ["/usr/bin/ssh"; "-F"; "ssh_config.test"; "-S"; "/tmp/ctl/control_path.socket";
   "localhost"; "/bin/bash"] = "/usr/bin/ssh" :: (if false then ["-vvvv"] else []) ++
        login_flag ++
        when_some (if Py.truthy_opt (Some "ssh_config.test") then option_map (expanduser (Bench.machine [])) (Some "ssh_config.test") else None)
          (fun f => ["-F"; f]) ++
        identity_flag ++
        later_flags (stored (Bench.machine []) "localhost" None None (Some "ssh_config.test") None None 60 false [] true true (Some "/tmp/ctl/control_path.socket") None)
          bash false false [] /\
  (login_flag <> [] <->
     Py.truthy_opt (Some "alice") = true /\ includes_secondary (role_of true true) = false) /\
  (identity_flag <> [] <->
     Py.truthy_opt None = true /\ includes_secondary (role_of true true) = false) /\
   ssh_command (stored (Bench.machine []) "localhost" None None (Some "ssh_config.test") None
                  None 60 false [] true true (Some "/tmp/ctl/control_path.socket") None)
     bash false false []
   = Ok ("/usr/bin/ssh" :: (if false then ["-vvvv"] else []) ++
         when_some (if Py.truthy_opt (Some "ssh_config.test")
                    then option_map (expanduser (Bench.machine [])) (Some "ssh_config.test")
                    else None)
           (fun f => ["-F"; f]) ++
         later_flags (stored (Bench.machine []) "localhost" None None (Some "ssh_config.test")
                        None None 60 false [] true true
                        (Some "/tmp/ctl/control_path.socket") None)
           bash false false [])).
Proof.
  split.
  - apply (login_and_identity_flags (Bench.machine []) "localhost" (Some "alice") None
             (Some "ssh_config.test") None None 60 false [] false false None
             initial Bench.standalone initial bash false false []);
      reflexivity.
  - apply (login_and_identity_flags (Bench.machine []) "localhost" (Some "alice") None
             (Some "ssh_config.test") None None 60 false [] true true
             (Some "/tmp/ctl/control_path.socket")
             initial Bench.primary_and_secondary
             (Bench.started Bench.primary_and_secondary) bash false false []);
      reflexivity.
Defined.

(** C4 (counterexample): a connection that is both primary and secondary
    and was given the login [alice] has a role that is not pure
    Secondary, yet its exec command carries no [-l] at all. *)
Lemma primary_and_secondary_omits_login :
  let r := __init__ (Bench.machine []) "localhost" (Some "alice") None
             (Some "ssh_config.test") None None 60 false [] true true
             (Some "/tmp/ctl/control_path.socket") initial in
  exists c, fst r = Ok c /\ role c = PrimaryAndSecondary /\
    ssh_command c bash false false []
    = Ok ["/usr/bin/ssh"; "-F"; "ssh_config.test"; "-S"; "/tmp/ctl/control_path.socket";
          "localhost"; "/bin/bash"] /\
    forall cmd, ssh_command c bash false false [] = Ok cmd -> ~ In "-l" cmd.
Proof.
  exists Bench.primary_and_secondary. repeat split.
  intros cmd H. injection H as <-. simpl.
  intros [H | [H | [H | [H | [H | [H | [H | []]]]]]]]; discriminate.
Qed.

(** ** Determinism, flag order and the golden vector *)

Lemma ssh_command_in_order c interpreter fwd init_master tunnels :
  ssh_command c interpreter fwd init_master tunnels
  = buildExecCommand c interpreter fwd init_master tunnels.
Proof.
  unfold ssh_command, buildExecCommand.
  destruct (negb (Py.truthy_opt interpreter) && negb init_master &&
            match tunnels with [] => true | _ :: _ => false end); [reflexivity|].
  f_equal. rewrite b_list_id. unfold b.
  destruct (port c) as [p|]; [destruct (port_truthy (Some p))|];
    destruct (debug c), fwd, (is_none interpreter), (control_path c) as [cp|];
    try destruct (master c && init_master);
    try destruct (slave c && negb init_master);
    simpl; repeat rewrite <- app_assoc; simpl; rewrite ?app_nil_r; reflexivity.
Qed.

Lemma ssh_command_handle_irrelevant sys srv lg prt cf idf sock tmo dbg opts m s cp h1 h2
    interpreter fwd init_master tunnels :
  ssh_command (stored sys srv lg prt cf idf sock tmo dbg opts m s cp h1)
    interpreter fwd init_master tunnels
  = ssh_command (stored sys srv lg prt cf idf sock tmo dbg opts m s cp h2)
      interpreter fwd init_master tunnels.
Proof. reflexivity. Qed.

(** C5 (as the code has it): the argument vector depends only on the
    constructor arguments and on the arguments of [ssh_command], not on
    the state of the machine the connection was built in; it lists the
    flags in the order of section 4.4 behind the client binary
    [/usr/bin/ssh]; and for server [localhost], login [alice],
    configuration file [ssh_config.test] and interpreter [/bin/bash] it
    is [/usr/bin/ssh -l alice -F ssh_config.test localhost /bin/bash]. *)
Theorem ssh_command_deterministic_ordered
    sys srv lg prt cf idf sock tmo dbg opts m s cp st1 st1' c1 st2 st2' c2
    interpreter fwd init_master tunnels :
  __init__ sys srv lg prt cf idf sock tmo dbg opts m s cp st1 = (Ok c1, st1') ->
  __init__ sys srv lg prt cf idf sock tmo dbg opts m s cp st2 = (Ok c2, st2') ->
  ssh_command c1 interpreter fwd init_master tunnels
    = ssh_command c2 interpreter fwd init_master tunnels /\
  ssh_command c1 interpreter fwd init_master tunnels
    = buildExecCommand c1 interpreter fwd init_master tunnels /\
  (srv = "localhost" -> lg = Some "alice" -> prt = None ->
   cf = Some "ssh_config.test" -> idf = None -> dbg = false -> opts = [] ->
   m = false -> s = false ->
   ssh_command c1 (Some "/bin/bash") false false [] = Ok golden_vector).
Proof.
  intros H1 H2. apply init_stores in H1. apply init_stores in H2.
  split; [|split].
  - rewrite H1, H2. apply ssh_command_handle_irrelevant.
  - apply ssh_command_in_order.
  - intros -> -> -> -> -> -> -> -> ->. rewrite H1.
    destruct cp as [p|]; [destruct p|]; reflexivity.
Qed.

Lemma ssh_command_deterministic_ordered_witness :
  ssh_command Bench.standalone bash false false []
    = ssh_command Bench.standalone bash false false [] /\
  ssh_command Bench.standalone bash false false []
    = buildExecCommand Bench.standalone bash false false [] /\
  ("localhost" = "localhost" -> Some "alice" = Some "alice" -> @None port_value = None ->
   Some "ssh_config.test" = Some "ssh_config.test" -> @None string = None ->
   false = false -> @nil string = [] -> false = false -> false = false ->
   ssh_command Bench.standalone (Some "/bin/bash") false false [] = Ok golden_vector).
Proof.
  apply (ssh_command_deterministic_ordered (Bench.machine []) "localhost" (Some "alice")
           None (Some "ssh_config.test") None None 60 false [] false false None
           initial initial Bench.standalone
           {| spawned := []; fed := []; killed := [0%nat]; scratch := []; fresh := 7 |}
           {| spawned := []; fed := []; killed := [0%nat]; scratch := []; fresh := 7 |}
           Bench.standalone bash false false []);
    reflexivity.
Defined.

(** C5 (counterexample): the vector built for that configuration is not
    the one that starts with the bare name [ssh]. *)
Lemma golden_vector_is_not_bare_ssh :
  fst (bind (__init__ (Bench.machine []) "localhost" (Some "alice") None
               (Some "ssh_config.test") None None 60 false [] false false None)
            (fun c => lift (ssh_command c (Some "/bin/bash") false false []))
            initial)
  <> Ok ["ssh"; "-l"; "alice"; "-F"; "ssh_config.test"; "localhost"; "/bin/bash"].
Proof. simpl. discriminate. Qed.

(** ** Transfer targets *)

Lemma ssh_command_bash c fwd :
  exists ssh_cmd, ssh_command c bash fwd false [] = Ok ssh_cmd.
Proof. unfold ssh_command. simpl. eexists. reflexivity. Qed.

Lemma get_scp_targets_completed sys c filenames target st out err code :
  primary_only c = false ->
  child sys (length (spawned st)) = Spawns (Completed out err code) ->
  fst (get_scp_targets sys c filenames target st) =
  if (code =? 255)%Z then
    Raise (match ssh_command c bash false false [] with
           | Ok ssh_cmd => client_error (u_list ssh_cmd) (user c) (Py.strip err)
           | Raise e => e
           end)
  else if (code =? 0)%Z then
    Ok (map (fun filename => Py.path_join target (Py.basename filename)) filenames)
  else Ok [target].
Proof.
  intros Hrole Hchild.
  destruct (ssh_command_bash c false) as [ssh_cmd Hcmd].
  unfold get_scp_targets, bind.
  rewrite (run_completed _ _ _ _ _ _ _ _ _ _ _ Hrole Hcmd Hchild), Hcmd.
  destruct (code =? 255)%Z; simpl; [reflexivity|].
  destruct (code =? 0)%Z; reflexivity.
Qed.

(** C6 (as the code has it): when the probe [test -d target] completes
    with return code 0, [get_scp_targets] returns the target joined with
    the base name of each file name, in order; when it completes with a
    return code other than 0 and 255 it returns the one-element list
    [target] whatever the file names; when it completes with 255 the
    [SSHError] of [run] propagates and no list is returned. *)
Theorem get_scp_targets_by_probe sys c filenames target st out err code :
  primary_only c = false ->
  child sys (length (spawned st)) = Spawns (Completed out err code) ->
  (code = 0%Z ->
     fst (get_scp_targets sys c filenames target st)
     = Ok (map (fun filename => Py.path_join target (Py.basename filename)) filenames)) /\
  (code <> 0%Z -> code <> 255%Z ->
     fst (get_scp_targets sys c filenames target st) = Ok [target]) /\
  (code = 255%Z ->
     exists msg, fst (get_scp_targets sys c filenames target st) = Raise (SSHError msg)).
Proof.
  intros Hrole Hchild.
  rewrite (get_scp_targets_completed _ _ _ _ _ _ _ _ Hrole Hchild).
  split; [|split].
  - intros ->. reflexivity.
  - intros H0 H255. apply Z.eqb_neq in H0, H255. rewrite H0, H255. reflexivity.
  - intros ->.
    destruct (ssh_command_bash c false) as [ssh_cmd ->].
    rewrite Z.eqb_refl. unfold client_error. eauto.
Qed.

Lemma get_scp_targets_by_probe_witness :
  fst (get_scp_targets (Bench.machine [0%Z]) Bench.standalone ["a.txt"; "b.txt"] "/etc" initial)
  = Ok ["/etc/a.txt"; "/etc/b.txt"] /\
  fst (get_scp_targets (Bench.machine [1%Z]) Bench.standalone ["a.txt"] "/etc/passwd" initial)
  = Ok ["/etc/passwd"].
Proof.
  split.
  - apply (get_scp_targets_by_probe (Bench.machine [0%Z]) Bench.standalone
             ["a.txt"; "b.txt"] "/etc" initial "out" "err" 0); reflexivity.
  - apply (get_scp_targets_by_probe (Bench.machine [1%Z]) Bench.standalone
             ["a.txt"] "/etc/passwd" initial "out" "err" 1);
      [reflexivity | reflexivity | discriminate | discriminate].
Defined.

(** C6 (counterexample): the probe for [/etc/passwd] does not exit 0 but
    255; [get_scp_targets] then raises instead of returning
    [[/etc/passwd]]. *)
Lemma get_scp_targets_probe_255 :
  child (Bench.machine [255%Z]) 0 = Spawns (Completed "out" "err" 255) /\
  fst (get_scp_targets (Bench.machine [255%Z]) Bench.standalone ["a.txt"] "/etc/passwd" initial)
  <> Ok ["/etc/passwd"] /\
  exists msg,
    fst (get_scp_targets (Bench.machine [255%Z]) Bench.standalone ["a.txt"] "/etc/passwd" initial)
    = Raise (SSHError msg).
Proof.
  split; [reflexivity|]. split.
  - simpl. discriminate.
  - simpl. unfold client_error. eauto.
Qed.

(** ** Scratch directories of [scp] *)

Lemma rmtree_removes d st : exists_dir d (snd (rmtree d st)) = false.
Proof.
  unfold exists_dir, rmtree. simpl.
  induction (scratch st) as [|e l IH]; simpl; [reflexivity|].
  destruct (String.eqb (fst e) d) eqn:E; simpl; [exact IH|].
  rewrite E. exact IH.
Qed.

Lemma run_keeps_scratch sys c cmd interpreter fwd tunnels st :
  scratch (snd (run sys c cmd interpreter fwd tunnels st)) = scratch st.
Proof.
  unfold run, bind, lift, Popen, communicate, kill, raise, ret.
  destruct (master c && negb (slave c)); [reflexivity|].
  destruct (ssh_command c interpreter fwd false []); [|reflexivity].
  destruct (child sys (length (spawned st))) as [msg | [out err code | msg]];
    simpl; try reflexivity.
  destruct (code =? 255)%Z; reflexivity.
Qed.

Lemma get_scp_targets_keeps_scratch sys c filenames target st :
  scratch (snd (get_scp_targets sys c filenames target st)) = scratch st.
Proof.
  unfold get_scp_targets, bind.
  pose proof (run_keeps_scratch sys c (b ("test -d " ++ Py.quote (u target))) bash false [] st) as H.
  destruct (run sys c (b ("test -d " ++ Py.quote (u target))) bash false [] st)
    as [[res | e] st']; simpl in *; [|exact H].
  destruct (returncode res =? 0)%Z; exact H.
Qed.

(** A fixup either returns normally with the scratch directories as
    they were, or raises after removing the one it was given, or lets
    the error of [run] through with the directories as they were. *)
Lemma fixup_scratch sys c d tool label value targets st :
  match fixup sys c (Some d) tool label value targets st with
  | (Ok _, st') => scratch st' = scratch st
  | (Raise (SSHError msg), st') =>
      exists_dir d st' = false \/ scratch st' = scratch st
  | (Raise _, st') => scratch st' = scratch st
  end.
Proof.
  unfold fixup.
  destruct value as [v|]; [|reflexivity].
  destruct (Py.truthy v); [|reflexivity].
  unfold bind.
  pose proof (run_keeps_scratch sys c (b_quote ([tool; v] ++ targets)) bash false [] st) as H.
  destruct (run sys c (b_quote ([tool; v] ++ targets)) bash false [] st)
    as [[res | e] st']; simpl in *.
  - destruct (returncode res =? 0)%Z; simpl; [exact H|].
    left. apply rmtree_removes.
  - destruct e; auto.
Qed.

Lemma convert_loop_keeps_spawned files filenames tmpdir st :
  spawned (snd (convert_loop files filenames tmpdir st)) = spawned st.
Proof.
  revert filenames tmpdir st.
  induction files as [|f files IH]; intros filenames tmpdir st; [reflexivity|].
  destruct f as [n | name content]; simpl; [apply IH|].
  unfold bind, mkdtemp, mkstemp, write_file, ret.
  destruct tmpdir as [d|], name as [n|]; simpl; rewrite IH; reflexivity.
Qed.

Lemma convert_loop_total files filenames tmpdir st :
  exists fns td, fst (convert_loop files filenames tmpdir st) = Ok (fns, td).
Proof.
  revert filenames tmpdir st.
  induction files as [|f files IH]; intros filenames tmpdir st; [simpl; eauto|].
  destruct f as [n | name content]; simpl; [apply IH|].
  unfold bind, mkdtemp, mkstemp, write_file, ret.
  destruct tmpdir as [d|], name as [n|]; simpl; apply IH.
Qed.

(** The fixup step of [scp], as one computation. *)
Lemma fixups_scratch sys c fns target mode owner d st :
  match (if Py.truthy_opt mode || Py.truthy_opt owner then
           targets <- get_scp_targets sys c fns target ;;
           fixup sys c (Some d) "chmod" "change mode: " mode targets ;;
           fixup sys c (Some d) "chown" "change owner: " owner targets
         else ret tt) st with
  | (Ok _, st') => scratch st' = scratch st
  | (Raise _, _) => True
  end.
Proof.
  destruct (Py.truthy_opt mode || Py.truthy_opt owner); [|reflexivity].
  unfold bind.
  pose proof (get_scp_targets_keeps_scratch sys c fns target st) as Ht.
  destruct (get_scp_targets sys c fns target st) as [[targets | e] st2]; [|exact I].
  pose proof (fixup_scratch sys c d "chmod" "change mode: " mode targets st2) as Hm.
  destruct (fixup sys c (Some d) "chmod" "change mode: " mode targets st2)
    as [[[] | e] st3]; [|exact I].
  pose proof (fixup_scratch sys c d "chown" "change owner: " owner targets st3) as Ho.
  destruct (fixup sys c (Some d) "chown" "change owner: " owner targets st3)
    as [[[] | e] st4]; [|exact I].
  simpl in *. congruence.
Qed.

Lemma scp_outcome sys c files target mode owner st fns d st1 cmd r st' :
  primary_only c = false ->
  convert_files_to_filenames files st = (Ok (fns, Some d), st1) ->
  scp_command c fns target = Ok cmd ->
  scp sys c (FileList files) target mode owner st = (r, st') ->
  (r = Ok tt -> exists_dir d st' = false) /\
  (forall f, child sys (length (spawned st)) = Spawns f ->
     match f with IOFailure _ => True | Completed _ _ code => code <> 0%Z end ->
     exists_dir d st' = false).
Proof.
  unfold primary_only. intros Hrole Hconv Hcmd.
  assert (Hsp : spawned st1 = spawned st).
  { pose proof (convert_loop_keeps_spawned files [] None st) as H.
    unfold convert_files_to_filenames in Hconv. rewrite Hconv in H. exact H. }
  unfold scp. rewrite Hrole.
  unfold bind at 1. rewrite Hconv. cbn [fst snd].
  unfold bind at 1. unfold lift at 1. rewrite Hcmd.
  unfold bind at 1. unfold Popen at 1. rewrite Hsp.
  destruct (child sys (length (spawned st))) as [msg | f] eqn:Hchild.
  { intros H. injection H as <- <-. split; [discriminate|]. intros f Hf. discriminate. }
  unfold bind at 1. unfold communicate at 1. cbn [pipe_fate].
  destruct f as [out err code | msg].
  - destruct (code =? 0)%Z eqn:Hcode; cbn [negb].
    + apply Z.eqb_eq in Hcode. intros H. split.
      2: { intros f Hf. injection Hf as <-. intros Hne. contradiction. }
      revert H. unfold bind at 1.
      match goal with
      | |- context [(if ?cond then ?m else ret tt) ?s] =>
          pose proof (fixups_scratch sys c fns target mode owner d s) as Hfix;
          destruct ((if cond then m else ret tt) s) as [[[] | e] st5]
      end.
      * intros H _. cbn [cleanup_tmp_dir] in H.
        pose proof (rmtree_removes d st5) as Hrm. rewrite H in Hrm. exact Hrm.
      * intros H. injection H as <- <-. discriminate.
    + unfold bind at 1. cbn [cleanup_tmp_dir].
      match goal with
      | |- context [rmtree d ?s] =>
          pose proof (rmtree_removes d s) as Hrm; destruct (rmtree d s) as [[[] | e] st2]
      end; intros H; injection H as <- <-; (split; [discriminate|]); intros; exact Hrm.
  - unfold bind at 1. unfold kill at 1.
    unfold bind at 1. cbn [cleanup_tmp_dir].
    match goal with
    | |- context [rmtree d ?s] =>
        pose proof (rmtree_removes d s) as Hrm; destruct (rmtree d s) as [[[] | e] st2]
    end; intros H; injection H as <- <-; (split; [discriminate|]); intros; exact Hrm.
Qed.

(** On the paths [scp] handles itself, the scratch directory is gone
    when the call ends: normal return, and failure of the transfer
    child (interrupted wait, or a non-zero return code). *)
Lemma scp_removes_scratch sys c files target mode owner st fns d st1 cmd :
  primary_only c = false ->
  convert_files_to_filenames files st = (Ok (fns, Some d), st1) ->
  scp_command c fns target = Ok cmd ->
  (fst (scp sys c (FileList files) target mode owner st) = Ok tt ->
   exists_dir d (snd (scp sys c (FileList files) target mode owner st)) = false) /\
  (forall f, child sys (length (spawned st)) = Spawns f ->
     match f with IOFailure _ => True | Completed _ _ code => code <> 0%Z end ->
     exists_dir d (snd (scp sys c (FileList files) target mode owner st)) = false).
Proof.
  intros Hrole Hconv Hcmd.
  destruct (scp sys c (FileList files) target mode owner st) as [r st'] eqn:E.
  exact (scp_outcome _ _ _ _ _ _ _ _ _ _ _ _ _ Hrole Hconv Hcmd E).
Qed.

(** C2 (evaluation at the failing input): [scp] of one in-memory source
    with mode [0644] creates the scratch directory [/tmp/tmp0].  When
    the transfer succeeds and the exec child of the [test -d] probe, or
    the one of [chmod], exits 255, the [SSHError] of [run] leaves [scp]
    with the scratch directory still in place; when [chmod] merely
    returns 1, or everything succeeds, the directory is removed. *)
Theorem scp_keeps_scratch_when_fixup_run_raises :
  let job codes :=
    scp (Bench.machine codes) Bench.standalone (FileList [FileObject None "test"])
      "/tmp/test1.txt" (Some "0644") None initial in
  fst (convert_files_to_filenames [FileObject None "test"] initial)
    = Ok (["/tmp/tmp0/tmp1"], Some "/tmp/tmp0") /\
  ((exists msg, fst (job [0; 255]%Z) = Raise (SSHError msg)) /\
   exists_dir "/tmp/tmp0" (snd (job [0; 255]%Z)) = true) /\
  ((exists msg, fst (job [0; 1; 255]%Z) = Raise (SSHError msg)) /\
   exists_dir "/tmp/tmp0" (snd (job [0; 1; 255]%Z)) = true) /\
  (fst (job [0; 1; 1]%Z) = Raise (SSHError "change mode: err") /\
   exists_dir "/tmp/tmp0" (snd (job [0; 1; 1]%Z)) = false) /\
  (fst (job [0; 1; 0]%Z) = Ok tt /\
   exists_dir "/tmp/tmp0" (snd (job [0; 1; 0]%Z)) = false).
Proof.
  cbv zeta. repeat split; try (vm_compute; eexists; reflexivity).
Qed.

(** * Further properties *)

(** ** Failures of [run] *)

(** X1: when the wait for the exec child is interrupted by an [IOError]
    (the alarm of the timeout among them), [run] sends SIGTERM to that
    child and raises [SSHError]; the child is the only process started
    and it had been fed the command. *)
Theorem run_interrupted sys c cmd interpreter fwd tunnels st ssh_cmd msg :
  primary_only c = false ->
  ssh_command c interpreter fwd false [] = Ok ssh_cmd ->
  child sys (length (spawned st)) = Spawns (IOFailure msg) ->
  run sys c cmd interpreter fwd tunnels st =
  (Raise (client_error (u_list ssh_cmd) (user c) msg),
   {| spawned := spawned st ++
                 [{| argv := ssh_cmd; auth_sock := get_env c; piped := true |}];
      fed := fed st ++ [(length (spawned st), b cmd)];
      killed := killed st ++ [length (spawned st)];
      scratch := scratch st; fresh := fresh st |}).
Proof.
  unfold primary_only. intros Hrole Hcmd Hchild.
  unfold run, bind, lift, Popen, communicate, kill, raise, ret.
  rewrite Hrole, Hcmd, Hchild. reflexivity.
Qed.

Lemma run_interrupted_witness :
  run Faults.stalled Bench.standalone "whoami" bash false [] initial
  = (Raise (client_error golden_vector "alice" "SSH connect timeout"),
     {| spawned := [{| argv := golden_vector; auth_sock := None; piped := true |}];
        fed := [(0%nat, "whoami")]; killed := [0%nat]; scratch := []; fresh := 0 |}).
Proof.
  apply (run_interrupted Faults.stalled Bench.standalone "whoami" bash false [] initial
           golden_vector "SSH connect timeout");
    reflexivity.
Defined.

(** X2: [run] needs an interpreter.  With [None] or an empty string it
    raises the [SSHError] of [ssh_command] before anything is started,
    whatever tunnels were passed, because those are not handed on. *)
Theorem run_without_interpreter sys c cmd interpreter fwd tunnels st :
  primary_only c = false ->
  Py.truthy_opt interpreter = false ->
  run sys c cmd interpreter fwd tunnels st = (Raise (SSHError no_interpreter_msg), st).
Proof.
  unfold primary_only. intros Hrole Hint.
  unfold run, bind, lift, ssh_command. rewrite Hrole, Hint. reflexivity.
Qed.

Lemma run_without_interpreter_witness :
  run (Bench.machine []) Bench.standalone "whoami" None false
      [{| tunnel_cls := SSHForwardingTunnel; local_addr := "localhost"; local_port := 8080;
          remote_addr := "localhost"; remote_port := 80 |}] initial
  = (Raise (SSHError no_interpreter_msg), initial).
Proof.
  apply (run_without_interpreter (Bench.machine []) Bench.standalone "whoami" None false);
    reflexivity.
Defined.

(** X3: when the client binary cannot be started, the [OSError] of
    [Popen] leaves [run] as it is, not wrapped in [SSHError], and the
    machine is unchanged. *)
Theorem run_spawn_failure sys c cmd interpreter fwd tunnels st ssh_cmd msg :
  primary_only c = false ->
  ssh_command c interpreter fwd false [] = Ok ssh_cmd ->
  child sys (length (spawned st)) = SpawnFails msg ->
  run sys c cmd interpreter fwd tunnels st = (Raise (OSError msg), st).
Proof.
  unfold primary_only. intros Hrole Hcmd Hchild.
  unfold run, bind, lift, Popen. rewrite Hrole, Hcmd, Hchild. reflexivity.
Qed.

Lemma run_spawn_failure_witness :
  run Faults.broken Bench.standalone "whoami" bash false [] initial
  = (Raise (OSError "No such file or directory"), initial).
Proof.
  apply (run_spawn_failure Faults.broken Bench.standalone "whoami" bash false [] initial
           golden_vector);
    reflexivity.
Defined.

(** ** The constructor *)

(** X4: construction is all or nothing.  When [__init__] raises, the
    machine is as it was before; when it returns a connection without
    [master], nothing was started either; with [master] it has started
    exactly one process, the control process, without pipes, whose
    handle it stores, and has fed or signalled nothing. *)
Theorem init_all_or_nothing sys srv lg prt cf idf sock tmo dbg opts m s cp st r st' :
  __init__ sys srv lg prt cf idf sock tmo dbg opts m s cp st = (r, st') ->
  match r with
  | Raise _ => st' = st
  | Ok c =>
      if m then
        master_ssh_pipe c = Some (length (spawned st)) /\
        fed st' = fed st /\ killed st' = killed st /\ scratch st' = scratch st /\
        exists p, spawned st' = spawned st ++ [p] /\ piped p = false /\
                  ssh_command c None false true [] = Ok (argv p)
      else st' = st /\ master_ssh_pipe c = None
  end.
Proof.
  intros H. apply init_outcome in H.
  destruct r as [c | e]; [|exact H].
  destruct H as (_ & _ & _ & _ & _ & _ & Hno & Hyes).
  destruct m; [|apply Hno; reflexivity].
  destruct (Hyes eq_refl) as [Hpipe [cmd [Hcmd ->]]].
  repeat (split; [reflexivity || exact Hpipe|]).
  eexists. split; [reflexivity|]. split; [reflexivity | exact Hcmd].
Qed.

Lemma init_all_or_nothing_witness :
  master_ssh_pipe Bench.primary = Some (length (spawned initial)) /\
  fed (Bench.started Bench.primary) = fed initial /\
  killed (Bench.started Bench.primary) = killed initial /\
  scratch (Bench.started Bench.primary) = scratch initial /\
  exists p, spawned (Bench.started Bench.primary) = spawned initial ++ [p] /\
            piped p = false /\
            ssh_command Bench.primary None false true [] = Ok (argv p).
Proof.
  apply (init_all_or_nothing (Bench.machine []) "localhost" (Some "alice") None
           (Some "ssh_config.test") None None 60 false [] true false
           (Some "/tmp/ctl/control_path.socket") initial (Ok Bench.primary)
           (Bench.started Bench.primary)).
  reflexivity.
Defined.

(** X5: what a constructed connection can rely on.  The server name
    and the stored login match the identifier pattern, and the stored
    configuration file and identity file exist.  A connection with
    [master] or [slave] was given a control path; the directory of that
    path as given, before any expansion, exists, and the connection
    stores the expansion of the path (the path itself when it is
    empty). *)
Theorem init_invariants sys srv lg prt cf idf sock tmo dbg opts m s cp st c st' :
  __init__ sys srv lg prt cf idf sock tmo dbg opts m s cp st = (Ok c, st') ->
  Py.ident_match (server c) = true /\
  (forall l, login c = Some l -> Py.ident_match l = true) /\
  (forall f, configfile c = Some f -> isfile sys f = true) /\
  (forall f, identity_file c = Some f -> isfile sys f = true) /\
  (master c || slave c = true ->
   exists p, cp = Some p /\ isdir sys (Py.dirname p) = true /\
             control_path c = Some (if Py.truthy p then expanduser sys p else p)).
Proof.
  intros H. apply init_outcome in H.
  destruct H as (Hc & Hsrv & Hlg & Hcf & Hidf & Hdir & _).
  assert (Hs : server c = srv) by (rewrite Hc; reflexivity).
  assert (Hm : master c = m) by (rewrite Hc; reflexivity).
  assert (Hsl : slave c = s) by (rewrite Hc; reflexivity).
  rewrite Hs, Hm, Hsl.
  repeat (split; [assumption|]).
  intros Hrole. destruct (Hdir Hrole) as [p [-> Hp]].
  exists p. repeat split; [exact Hp|].
  rewrite Hc. simpl. destruct (Py.truthy p); reflexivity.
Qed.

Lemma init_invariants_witness :
  Py.ident_match (server Bench.primary) = true /\
  (forall l, login Bench.primary = Some l -> Py.ident_match l = true) /\
  (forall f, configfile Bench.primary = Some f -> isfile (Bench.machine []) f = true) /\
  (forall f, identity_file Bench.primary = Some f -> isfile (Bench.machine []) f = true) /\
  (master Bench.primary || slave Bench.primary = true ->
   exists p, Some "/tmp/ctl/control_path.socket" = Some p /\
             isdir (Bench.machine []) (Py.dirname p) = true /\
             control_path Bench.primary
             = Some (if Py.truthy p then expanduser (Bench.machine []) p else p)).
Proof.
  apply (init_invariants (Bench.machine []) "localhost" (Some "alice") None
           (Some "ssh_config.test") None None 60 false [] true false
           (Some "/tmp/ctl/control_path.socket") initial Bench.primary
           (Bench.started Bench.primary)).
  reflexivity.
Defined.

(** X6: a connection with [slave] set ignores the credentials it is
    given.  The login is neither checked nor stored, the identity file
    is neither looked up nor stored, and the agent socket is dropped:
    with any other login, identity file and agent socket the
    constructor returns the same connection, and no child of that
    connection gets an agent socket. *)
Theorem init_secondary_ignores_credentials
    sys srv lg lg' prt cf idf idf' sock sock' tmo dbg opts m cp st c st' :
  __init__ sys srv lg prt cf idf sock tmo dbg opts m true cp st = (Ok c, st') ->
  __init__ sys srv lg' prt cf idf' sock' tmo dbg opts m true cp st = (Ok c, st') /\
  login c = None /\ identity_file c = None /\ get_env c = None.
Proof.
  intros H. split; [exact H|].
  apply init_stores in H. rewrite H. repeat split.
Qed.

Lemma init_secondary_ignores_credentials_witness :
  __init__ (Bench.machine []) "localhost" (Some "not a login") None
    (Some "ssh_config.test") (Some "/no/such/key") (Some "/tmp/agent.sock") 60 false []
    false true (Some "/tmp/ctl/control_path.socket") initial
  = (Ok Bench.secondary, initial) /\
  login Bench.secondary = None /\ identity_file Bench.secondary = None /\
  get_env Bench.secondary = None.
Proof.
  apply (init_secondary_ignores_credentials (Bench.machine []) "localhost"
           (Some "alice") (Some "not a login") None (Some "ssh_config.test")
           None (Some "/no/such/key") None (Some "/tmp/agent.sock") 60 false []
           false (Some "/tmp/ctl/control_path.socket") initial Bench.secondary initial).
  reflexivity.
Defined.

(** ** Shape of the command lines *)

(** X7: whatever the configuration, the exec command begins with the
    client binary and ends with the tunnels, the pass-through options
    as [-o] pairs, the server and, when one is given, the interpreter,
    in this order: nothing but the interpreter follows the server. *)
Theorem ssh_command_tail c interpreter fwd init_master tunnels cmd :
  ssh_command c interpreter fwd init_master tunnels = Ok cmd ->
  exists flags,
    cmd = "/usr/bin/ssh" :: flags ++ map tunnel_str tunnels ++
          flat_map (fun option => ["-o"; option]) (options c) ++
          server c :: when_some interpreter (fun i => [i]).
Proof.
  intros H. apply ssh_command_shape in H. subst cmd. unfold later_flags.
  exists ((if debug c then ["-vvvv"] else []) ++
          when_some (login c) (fun l => ["-l"; l]) ++
          when_some (configfile c) (fun f => ["-F"; f]) ++
          when_some (identity_file c) (fun f => ["-i"; f]) ++
          (if fwd then ["-A"] else []) ++
          (if port_truthy (port c) then
             match port c with Some p => ["-p"; port_str p] | None => [] end
           else []) ++
          (if is_none interpreter then ["-N"] else []) ++
          match control_path c with
          | Some cp =>
              (if master c && init_master then ["-M"; "-S"; cp] else []) ++
              (if slave c && negb init_master then ["-S"; cp] else [])
          | None => []
          end).
  f_equal. repeat rewrite <- app_assoc. reflexivity.
Qed.

Lemma ssh_command_tail_witness :
  exists flags,
    ["/usr/bin/ssh"; "-F"; "ssh_config.test"; "-S"; "/tmp/ctl/control_path.socket";
     "localhost"; "/bin/bash"]
    = "/usr/bin/ssh" :: flags ++ map tunnel_str [] ++
      flat_map (fun option => ["-o"; option]) (options Bench.secondary) ++
      server Bench.secondary :: when_some bash (fun i => [i]).
Proof.
  apply (ssh_command_tail Bench.secondary bash false false []). reflexivity.
Defined.

(** X8: the upload command exists exactly when there is at least one
    file; it then ends with the files, in order, followed by
    [login@server:target] (or [server:target] without a login), behind
    flags that depend neither on the files nor on the target. *)
Theorem scp_command_shape c :
  exists flags,
    forall files target,
      (files = [] -> scp_command c files target = Raise (ValueError no_files_msg)) /\
      (files <> [] ->
       scp_command c files target
       = Ok ("/usr/bin/scp" :: flags ++ files ++ [(remotename c ++ ":" ++ target)%string])).
Proof.
  exists (verbosity c :: "-r" ::
          when_some (configfile c) (fun f => ["-F"; f]) ++
          when_some (identity_file c) (fun f => ["-i"; f]) ++
          match port c with
          | Some p => if port_truthy (port c) then ["-P"; port_str p] else []
          | None => []
          end ++
          flat_map (fun option => ["-o"; option]) (options c)).
  intros files target. split.
  - intros ->. reflexivity.
  - intros Hne. unfold scp_command. rewrite !b_list_id.
    destruct files as [|f files]; [contradiction|].
    cbn [length Nat.ltb Nat.leb].
    f_equal.
    destruct (port c) as [p|]; [destruct (port_truthy (Some p))|];
      cbn [app]; repeat rewrite <- app_assoc; cbn [app]; rewrite ?app_nil_r;
      reflexivity.
Qed.

(** X9: an integer port breaks downloads only.  With a non-zero integer
    port the download command cannot be built, and [scp_down] raises
    [AttributeError] without starting anything, while the upload command
    for the same connection is built, with the pair [-P port], the port
    printed in decimal, after the identity-file flag and before the
    pass-through options. *)
Theorem scp_down_integer_port sys c n remotefile localtarget mode owner st :
  port c = Some (PortInt n) -> n <> 0%Z ->
  Py.truthy remotefile = true -> Py.truthy localtarget = true ->
  scp_down sys c (Some remotefile) (Some localtarget) mode owner st
  = (Raise (AttributeError "'int' object has no attribute 'encode'"), st) /\
  forall file target,
    scp_command c [file] target
    = Ok ("/usr/bin/scp" :: verbosity c :: "-r" ::
          when_some (configfile c) (fun f => ["-F"; f]) ++
          when_some (identity_file c) (fun f => ["-i"; f]) ++
          ["-P"; Py.str_of_int n] ++
          flat_map (fun option => ["-o"; option]) (options c) ++
          [file; (remotename c ++ ":" ++ target)%string]).
Proof.
  intros Hport Hn Hrf Hlt.
  apply Z.eqb_neq in Hn.
  split.
  - unfold scp_down, bind, lift, scp_down_command, down_port_flag.
    rewrite Hrf, Hlt, Hport. simpl. rewrite Hn. reflexivity.
  - intros file target. unfold scp_command. rewrite Hport.
    unfold port_truthy. rewrite Hn. cbn [negb length b_list map Nat.ltb Nat.leb port_str].
    rewrite b_list_id. unfold b. f_equal.
    cbn [app]. repeat rewrite <- app_assoc. cbn [app]. reflexivity.
Qed.

Lemma scp_down_integer_port_witness :
  scp_down (Bench.machine [])
    {| server := "localhost"; port := Some (PortInt 22); timeout := 60; user := "alice";
       debug := false; master := false; control_path := None; slave := false;
       configfile := None; login := Some "alice"; identity_file := None;
       ssh_agent_socket := None; options := ["StrictHostKeyChecking=no"];
       master_ssh_pipe := None |}
    (Some "remote.txt") (Some "/tmp/local.txt") None None initial
  = (Raise (AttributeError "'int' object has no attribute 'encode'"), initial) /\
  forall file target,
    scp_command
      {| server := "localhost"; port := Some (PortInt 22); timeout := 60; user := "alice";
       debug := false; master := false; control_path := None; slave := false;
       configfile := None; login := Some "alice"; identity_file := None;
       ssh_agent_socket := None; options := ["StrictHostKeyChecking=no"];
       master_ssh_pipe := None |}
      [file] target
    = Ok ("/usr/bin/scp" :: "-q" :: "-r" :: [] ++ [] ++ ["-P"; "22"] ++
          ["-o"; "StrictHostKeyChecking=no"] ++
          [file; ("alice@localhost" ++ ":" ++ target)%string]).
Proof.
  apply (scp_down_integer_port (Bench.machine [])
           {| server := "localhost"; port := Some (PortInt 22); timeout := 60; user := "alice";
       debug := false; master := false; control_path := None; slave := false;
       configfile := None; login := Some "alice"; identity_file := None;
       ssh_agent_socket := None; options := ["StrictHostKeyChecking=no"];
       master_ssh_pipe := None |}
           22 "remote.txt" "/tmp/local.txt" None None initial);
    [reflexivity | discriminate | reflexivity | reflexivity].
Defined.

(** X10: the download command, for a port that is absent, a string or
    zero, is the transfer binary, the verbosity flag, [-r], the
    configuration-file, identity-file and port flags, then
    [login@server:remotefile] and the local target as the last two
    arguments.  The pass-through options of the connection never appear
    in it: the command is the same whatever they are. *)
Theorem scp_down_command_shape c remotefile localtarget opts :
  Py.truthy remotefile = true -> Py.truthy localtarget = true ->
  match port c with Some (PortInt n) => n = 0%Z | _ => True end ->
  scp_down_command (with_options c opts) (Some remotefile) (Some localtarget)
  = Ok (Some ("/usr/bin/scp" :: verbosity c :: "-r" ::
              when_some (configfile c) (fun f => ["-F"; f]) ++
              when_some (identity_file c) (fun f => ["-i"; f]) ++
              match port c with
              | Some (PortStr s) => if Py.truthy s then ["-P"; s] else []
              | _ => []
              end ++
              [(remotename c ++ ":" ++ remotefile)%string; localtarget])).
Proof.
  intros Hrf Hlt Hport.
  unfold scp_down_command, down_port_flag, with_options, verbosity, remotename.
  cbn [port configfile identity_file debug login server].
  rewrite Hrf, Hlt. cbn [andb].
  destruct (port c) as [[n | s] |]; cbn [port_truthy].
  - subst n. cbn. rewrite b_list_id. f_equal. f_equal.
    repeat rewrite <- app_assoc. reflexivity.
  - destruct (Py.truthy s); rewrite b_list_id; f_equal; f_equal;
      cbn [app]; repeat rewrite <- app_assoc; reflexivity.
  - rewrite b_list_id. f_equal. f_equal.
    cbn [app]. repeat rewrite <- app_assoc. reflexivity.
Qed.

Lemma scp_down_command_shape_witness :
  scp_down_command (with_options Bench.standalone ["StrictHostKeyChecking=no"])
    (Some "remote.txt") (Some "/tmp/local.txt")
  = Ok (Some ("/usr/bin/scp" :: verbosity Bench.standalone :: "-r" ::
              when_some (configfile Bench.standalone) (fun f => ["-F"; f]) ++
              when_some (identity_file Bench.standalone) (fun f => ["-i"; f]) ++
              match port Bench.standalone with
              | Some (PortStr s) => if Py.truthy s then ["-P"; s] else []
              | _ => []
              end ++
              [(remotename Bench.standalone ++ ":" ++ "remote.txt")%string;
               "/tmp/local.txt"])).
Proof.
  apply (scp_down_command_shape Bench.standalone "remote.txt" "/tmp/local.txt"
           ["StrictHostKeyChecking=no"]); [reflexivity | reflexivity | exact I].
Defined.

(** ** Uploads *)

Lemma convert_loop_machine files filenames tmpdir st :
  fed (snd (convert_loop files filenames tmpdir st)) = fed st /\
  killed (snd (convert_loop files filenames tmpdir st)) = killed st.
Proof.
  revert filenames tmpdir st.
  induction files as [|f files IH]; intros filenames tmpdir st; [split; reflexivity|].
  destruct f as [n | name content]; simpl; [apply IH|].
  unfold bind, mkdtemp, mkstemp, write_file, ret.
  destruct tmpdir as [d|], name as [n|]; simpl;
    match goal with
    | |- context [convert_loop files ?a ?t ?s] => destruct (IH a t s) as [-> ->]
    end; split; reflexivity.
Qed.

(** [scp] up to the end of the transfer: the rest of the method, run in
    the state the transfer child leaves. *)
Lemma scp_after_transfer sys c files target mode owner st fns td st1 cmd f :
  primary_only c = false ->
  convert_files_to_filenames files st = (Ok (fns, td), st1) ->
  scp_command c fns target = Ok cmd ->
  child sys (length (spawned st)) = Spawns f ->
  scp sys c (FileList files) target mode owner st =
  match f with
  | IOFailure exc =>
      kill {| pid := length (spawned st); pipe_fate := f |} ;;
      cleanup_tmp_dir td ;;
      raise (client_error (u_list cmd) (user c) exc)
  | Completed _ err code =>
      if negb (code =? 0)%Z then
        cleanup_tmp_dir td ;;
        raise (client_error (u_list cmd) (user c) (Py.strip err))
      else
        (if Py.truthy_opt mode || Py.truthy_opt owner then
           targets <- get_scp_targets sys c fns target ;;
           fixup sys c td "chmod" "change mode: " mode targets ;;
           fixup sys c td "chown" "change owner: " owner targets
         else ret tt) ;;
        cleanup_tmp_dir td
  end
    {| spawned := spawned st ++ [{| argv := cmd; auth_sock := get_env c; piped := true |}];
       fed := fed st; killed := killed st;
       scratch := scratch st1; fresh := fresh st1 |}.
Proof.
  unfold primary_only. intros Hrole Hconv Hcmd Hchild.
  assert (Hsp : spawned st1 = spawned st).
  { pose proof (convert_loop_keeps_spawned files [] None st) as H.
    unfold convert_files_to_filenames in Hconv. rewrite Hconv in H. exact H. }
  assert (Hfk : fed st1 = fed st /\ killed st1 = killed st).
  { pose proof (convert_loop_machine files [] None st) as H.
    unfold convert_files_to_filenames in Hconv. rewrite Hconv in H. exact H. }
  destruct Hfk as [Hfd Hkl].
  unfold scp. rewrite Hrole.
  unfold bind at 1. rewrite Hconv. cbn [fst snd].
  unfold bind at 1. unfold lift at 1. rewrite Hcmd.
  unfold bind at 1. unfold Popen at 1. rewrite Hsp, Hchild, Hfd, Hkl.
  unfold bind at 1. unfold communicate at 1. cbn [pipe_fate pid spawned fed killed scratch fresh].
  destruct f; reflexivity.
Qed.

(** X11: a transfer child that exits with any non-zero code makes [scp]
    raise [SSHError]; unlike [run], no such code is a result.  The
    transfer child is the only process started, nothing is fed or
    signalled, no fixup is attempted whatever mode and owner are, and
    the scratch directory, if one was made, is removed.  The text of
    the error is left open. *)
Theorem scp_transfer_nonzero
    sys c files target mode owner st fns td st1 cmd out err code :
  primary_only c = false ->
  convert_files_to_filenames files st = (Ok (fns, td), st1) ->
  scp_command c fns target = Ok cmd ->
  child sys (length (spawned st)) = Spawns (Completed out err code) ->
  code <> 0%Z ->
  exists msg,
    scp sys c (FileList files) target mode owner st =
    (Raise (SSHError msg),
     {| spawned := spawned st ++ [transfer_process c cmd];
        fed := fed st; killed := killed st;
        scratch := without_dir td (scratch st1); fresh := fresh st1 |}).
Proof.
  intros Hrole Hconv Hcmd Hchild Hcode.
  rewrite (scp_after_transfer _ _ _ _ _ _ _ _ _ _ _ _ Hrole Hconv Hcmd Hchild).
  apply Z.eqb_neq in Hcode. rewrite Hcode. cbn [negb].
  unfold client_error. eexists.
  destruct td; reflexivity.
Qed.

(** X12: when the wait for the transfer child is interrupted by an
    [IOError] (the timeout alarm among them), [scp] sends SIGTERM to
    the child, removes the scratch directory if one was made, and
    raises [SSHError]. *)
Theorem scp_transfer_interrupted
    sys c files target mode owner st fns td st1 cmd msg :
  primary_only c = false ->
  convert_files_to_filenames files st = (Ok (fns, td), st1) ->
  scp_command c fns target = Ok cmd ->
  child sys (length (spawned st)) = Spawns (IOFailure msg) ->
  scp sys c (FileList files) target mode owner st =
  (Raise (client_error (u_list cmd) (user c) msg),
   {| spawned := spawned st ++ [transfer_process c cmd];
      fed := fed st; killed := killed st ++ [length (spawned st)];
      scratch := without_dir td (scratch st1); fresh := fresh st1 |}).
Proof.
  intros Hrole Hconv Hcmd Hchild.
  rewrite (scp_after_transfer _ _ _ _ _ _ _ _ _ _ _ _ Hrole Hconv Hcmd Hchild).
  destruct td; reflexivity.
Qed.

Lemma state_eta st :
  st = {| spawned := spawned st; fed := fed st; killed := killed st;
          scratch := scratch st; fresh := fresh st |}.
Proof. destruct st; reflexivity. Qed.

Lemma run_ok sys c cmd st ssh_cmd out err code :
  primary_only c = false ->
  ssh_command c bash false false [] = Ok ssh_cmd ->
  child sys (length (spawned st)) = Spawns (Completed out err code) ->
  code <> 255%Z ->
  run sys c cmd bash false [] st =
  (Ok {| command := cmd; stdout := Py.strip out; stderr := Py.strip err;
         returncode := code |},
   after_run c ssh_cmd cmd st).
Proof.
  intros Hrole Hssh Hchild Hcode.
  rewrite (run_completed _ _ _ _ _ _ _ _ _ _ _ Hrole Hssh Hchild).
  apply Z.eqb_neq in Hcode. rewrite Hcode. reflexivity.
Qed.

Lemma get_scp_targets_ok sys c filenames target st ssh_cmd out err code :
  primary_only c = false ->
  ssh_command c bash false false [] = Ok ssh_cmd ->
  child sys (length (spawned st)) = Spawns (Completed out err code) ->
  code <> 255%Z ->
  get_scp_targets sys c filenames target st =
  (Ok (resolved code filenames target),
   after_run c ssh_cmd ("test -d " ++ Py.quote target) st).
Proof.
  intros Hrole Hssh Hchild Hcode.
  unfold get_scp_targets, bind.
  rewrite (run_ok _ _ _ _ _ _ _ _ Hrole Hssh Hchild Hcode).
  cbn [returncode]. unfold resolved, ret.
  destruct (code =? 0)%Z; reflexivity.
Qed.

Lemma fixup_ok sys c td tool label v targets st ssh_cmd out err :
  primary_only c = false ->
  ssh_command c bash false false [] = Ok ssh_cmd ->
  Py.truthy v = true ->
  child sys (length (spawned st)) = Spawns (Completed out err 0) ->
  fixup sys c td tool label (Some v) targets st =
  (Ok tt, after_run c ssh_cmd (b_quote (tool :: v :: targets)) st).
Proof.
  intros Hrole Hssh Hv Hchild.
  unfold fixup. rewrite Hv. unfold bind.
  rewrite (run_ok _ _ _ _ _ _ _ 0%Z Hrole Hssh Hchild);
    [reflexivity | discriminate].
Qed.

(** X13: a successful upload with a mode and an owner runs four
    children in this order: the transfer, the [test -d] probe, one
    [chmod] and one [chown].  Both fixups are fed the shell-quoted
    command over the same targets, resolved once by the probe, and the
    scratch directory, if one was made, is removed at the end. *)
Theorem scp_fixup_sequence
    sys c files target mode owner st fns td st1 cmd ssh_cmd
    out0 err0 out1 err1 code1 out2 err2 out3 err3 :
  primary_only c = false ->
  convert_files_to_filenames files st = (Ok (fns, td), st1) ->
  scp_command c fns target = Ok cmd ->
  ssh_command c bash false false [] = Ok ssh_cmd ->
  Py.truthy mode = true -> Py.truthy owner = true ->
  child sys (length (spawned st)) = Spawns (Completed out0 err0 0) ->
  child sys (1 + length (spawned st)) = Spawns (Completed out1 err1 code1) ->
  code1 <> 255%Z ->
  child sys (2 + length (spawned st)) = Spawns (Completed out2 err2 0) ->
  child sys (3 + length (spawned st)) = Spawns (Completed out3 err3 0) ->
  scp sys c (FileList files) target (Some mode) (Some owner) st =
  (Ok tt,
   {| spawned := spawned st ++
                 [transfer_process c cmd; transfer_process c ssh_cmd;
                  transfer_process c ssh_cmd; transfer_process c ssh_cmd];
      fed := fed st ++
             [(1 + length (spawned st), ("test -d " ++ Py.quote target)%string);
              (2 + length (spawned st),
               b_quote ("chmod" :: mode :: resolved code1 fns target));
              (3 + length (spawned st),
               b_quote ("chown" :: owner :: resolved code1 fns target))];
      killed := killed st;
      scratch := without_dir td (scratch st1); fresh := fresh st1 |}).
Proof.
  intros Hrole Hconv Hcmd Hssh Hmode Howner H0 H1 Hcode1 H2 H3.
  rewrite (scp_after_transfer _ _ _ _ _ _ _ _ _ _ _ _ Hrole Hconv Hcmd H0).
  cbn [Z.eqb negb Py.truthy_opt]. rewrite Hmode. cbn [orb].
  set (s1 := {| spawned := spawned st ++ [transfer_process c cmd];
                fed := fed st; killed := killed st;
                scratch := scratch st1; fresh := fresh st1 |}).
  change {| spawned := spawned st ++ [{| argv := cmd; auth_sock := get_env c; piped := true |}];
            fed := fed st; killed := killed st;
            scratch := scratch st1; fresh := fresh st1 |} with s1.
  assert (L1 : length (spawned s1) = 1 + length (spawned st))
    by (unfold s1; cbn [spawned]; rewrite length_app; cbn [length]; lia).
  unfold bind at 1. unfold bind at 1.
  rewrite (get_scp_targets_ok sys c fns target s1 ssh_cmd out1 err1 code1 Hrole Hssh);
    [| rewrite L1; exact H1 | exact Hcode1].
  set (s2 := after_run c ssh_cmd ("test -d " ++ Py.quote target) s1).
  assert (L2 : length (spawned s2) = 2 + length (spawned st))
    by (unfold s2, after_run; cbn [spawned]; rewrite length_app, L1; cbn [length]; lia).
  unfold bind at 1.
  rewrite (fixup_ok sys c td "chmod" "change mode: " mode _ s2 ssh_cmd out2 err2 Hrole Hssh Hmode);
    [| rewrite L2; exact H2].
  set (s3 := after_run c ssh_cmd (b_quote ("chmod" :: mode :: resolved code1 fns target)) s2).
  assert (L3 : length (spawned s3) = 3 + length (spawned st))
    by (unfold s3, after_run; cbn [spawned]; rewrite length_app, L2; cbn [length]; lia).
  rewrite (fixup_ok sys c td "chown" "change owner: " owner _ s3 ssh_cmd out3 err3 Hrole Hssh Howner);
    [| rewrite L3; exact H3].
  assert (Hsp : spawned (after_run c ssh_cmd
                           (b_quote ("chown" :: owner :: resolved code1 fns target)) s3)
                = spawned st ++
                  [transfer_process c cmd; transfer_process c ssh_cmd;
                   transfer_process c ssh_cmd; transfer_process c ssh_cmd]).
  { unfold s3, s2, s1, after_run. cbn [spawned].
    repeat rewrite <- app_assoc. reflexivity. }
  assert (Hfd : fed (after_run c ssh_cmd
                       (b_quote ("chown" :: owner :: resolved code1 fns target)) s3)
                = fed st ++
                  [(1 + length (spawned st), ("test -d " ++ Py.quote target)%string);
                   (2 + length (spawned st),
                    b_quote ("chmod" :: mode :: resolved code1 fns target));
                   (3 + length (spawned st),
                    b_quote ("chown" :: owner :: resolved code1 fns target))]).
  { unfold after_run at 1. cbn [fed]. rewrite L3.
    unfold s3 at 1. unfold after_run at 1. cbn [fed]. rewrite L2.
    unfold s2 at 1. unfold after_run at 1. cbn [fed]. rewrite L1.
    unfold s1. cbn [fed]. unfold b.
    repeat rewrite <- app_assoc. reflexivity. }
  unfold bind.
  destruct td as [d|]; unfold cleanup_tmp_dir, rmtree, ret, without_dir.
  - rewrite Hsp, Hfd. reflexivity.
  - rewrite (state_eta (after_run _ _ _ s3)), Hsp, Hfd. reflexivity.
Qed.

Lemma scp_transfer_nonzero_witness :
  exists msg,
    scp (Bench.machine [1%Z]) Bench.standalone
        (FileList [FileObject (Some "notes.txt") "test"]) "/tmp" (Some "0644") None initial =
    (Raise (SSHError msg),
     {| spawned := [transfer_process Bench.standalone
                      ["/usr/bin/scp"; "-q"; "-r"; "-F"; "ssh_config.test";
                       "/tmp/tmp0/notes.txt"; "alice@localhost:/tmp"]];
        fed := []; killed := []; scratch := []; fresh := 1 |}).
Proof.
  apply (scp_transfer_nonzero (Bench.machine [1%Z]) Bench.standalone
           [FileObject (Some "notes.txt") "test"] "/tmp" (Some "0644") None initial
           ["/tmp/tmp0/notes.txt"] (Some "/tmp/tmp0")
           {| spawned := []; fed := []; killed := [];
              scratch := [("/tmp/tmp0", [("/tmp/tmp0/notes.txt", "test")])]; fresh := 1 |}
           ["/usr/bin/scp"; "-q"; "-r"; "-F"; "ssh_config.test"; "/tmp/tmp0/notes.txt";
            "alice@localhost:/tmp"] "out" "err" 1);
    [reflexivity | reflexivity | reflexivity | reflexivity | discriminate].
Defined.

Lemma scp_transfer_interrupted_witness :
  scp Faults.stalled Bench.standalone (FileList [FileObject (Some "notes.txt") "test"])
      "/tmp" None None initial =
  (Raise (client_error
            ["/usr/bin/scp"; "-q"; "-r"; "-F"; "ssh_config.test"; "/tmp/tmp0/notes.txt";
             "alice@localhost:/tmp"] "alice" "SSH connect timeout"),
   {| spawned := [transfer_process Bench.standalone
                    ["/usr/bin/scp"; "-q"; "-r"; "-F"; "ssh_config.test";
                     "/tmp/tmp0/notes.txt"; "alice@localhost:/tmp"]];
      fed := []; killed := [0%nat]; scratch := []; fresh := 1 |}).
Proof.
  apply (scp_transfer_interrupted Faults.stalled Bench.standalone
           [FileObject (Some "notes.txt") "test"] "/tmp" None None initial
           ["/tmp/tmp0/notes.txt"] (Some "/tmp/tmp0")
           {| spawned := []; fed := []; killed := [];
              scratch := [("/tmp/tmp0", [("/tmp/tmp0/notes.txt", "test")])]; fresh := 1 |}
           ["/usr/bin/scp"; "-q"; "-r"; "-F"; "ssh_config.test"; "/tmp/tmp0/notes.txt";
            "alice@localhost:/tmp"] "SSH connect timeout");
    reflexivity.
Defined.

Lemma scp_fixup_sequence_witness :
  scp (Bench.machine []) Bench.standalone (FileList [FileName "/home/alice/my notes.txt"])
      "/tmp" (Some "0644") (Some "alice:staff") initial =
  (Ok tt,
   {| spawned := [transfer_process Bench.standalone
                    ["/usr/bin/scp"; "-q"; "-r"; "-F"; "ssh_config.test";
                     "/home/alice/my notes.txt"; "alice@localhost:/tmp"];
                  transfer_process Bench.standalone golden_vector;
                  transfer_process Bench.standalone golden_vector;
                  transfer_process Bench.standalone golden_vector];
      fed := [(1%nat, "test -d /tmp");
              (2%nat, "chmod 0644 '/tmp/my notes.txt'");
              (3%nat, "chown alice:staff '/tmp/my notes.txt'")];
      killed := []; scratch := []; fresh := 0 |}).
Proof.
  apply (scp_fixup_sequence (Bench.machine []) Bench.standalone
           [FileName "/home/alice/my notes.txt"] "/tmp" "0644" "alice:staff" initial
           ["/home/alice/my notes.txt"] None initial
           ["/usr/bin/scp"; "-q"; "-r"; "-F"; "ssh_config.test";
            "/home/alice/my notes.txt"; "alice@localhost:/tmp"]
           golden_vector "out" "err" "out" "err" 0 "out" "err" "out" "err");
    try reflexivity; discriminate.
Defined.

(** ** Sources and scratch directories *)

Lemma convert_loop_names names filenames tmpdir st :
  convert_loop (map FileName names) filenames tmpdir st
  = (Ok (filenames ++ names, tmpdir), st).
Proof.
  revert filenames.
  induction names as [|n names IH]; intros filenames; simpl.
  - rewrite app_nil_r. reflexivity.
  - rewrite IH, <- app_assoc. reflexivity.
Qed.

Lemma convert_loop_facts files : forall filenames tmpdir st fns td st1,
  convert_loop files filenames tmpdir st = (Ok (fns, td), st1) ->
  length fns = (length filenames + length files)%nat /\
  (td = None <-> tmpdir = None /\ forallb is_name files = true) /\
  length (scratch st1) =
    (length (scratch st) +
     match tmpdir, td with None, Some _ => 1 | _, _ => 0 end)%nat.
Proof.
  induction files as [|f files IH]; intros filenames tmpdir st fns td st1 H.
  - simpl in H. injection H as <- <- <-. simpl.
    split; [lia|]. split; [tauto|]. destruct tmpdir; lia.
  - destruct f as [n | name content]; simpl in H.
    + apply IH in H. destruct H as (Hl & Htd & Hs).
      rewrite length_app in Hl. simpl in *. split; [lia|]. split; assumption.
    + unfold bind, mkdtemp, mkstemp, write_file, ret in H.
      destruct tmpdir as [d|], name as [n|]; simpl in H; apply IH in H;
        destruct H as (Hl & Htd & Hs); rewrite length_app in Hl; simpl in *;
        unfold add_entry in Hs; rewrite ?length_map, ?length_app in Hs; simpl in Hs;
        (split; [lia|]); (split; [split; [intros E; apply Htd in E; destruct E; discriminate
                                         | intros [_ E]; discriminate]|]);
        destruct td; try lia;
        exfalso; assert (E : @None string = None) by reflexivity;
        apply Htd in E; destruct E; discriminate.
Qed.

(** X14: [convert_files_to_filenames] returns one name per source, in
    the number given; it makes a scratch directory exactly when some
    source is a file-like object, and then no more than one; when every
    source is a file name the names come back unchanged and the machine
    is untouched. *)
Theorem convert_files_to_filenames_facts files st fns td st1 :
  convert_files_to_filenames files st = (Ok (fns, td), st1) ->
  length fns = length files /\
  (td = None <-> forallb is_name files = true) /\
  length (scratch st1) =
    (length (scratch st) + match td with Some _ => 1 | None => 0 end)%nat /\
  (forall names, files = map FileName names -> fns = names /\ st1 = st).
Proof.
  intros H. unfold convert_files_to_filenames in H.
  pose proof (convert_loop_facts files [] None st fns td st1 H) as (Hl & Htd & Hs).
  split; [exact Hl|]. split; [|split; [exact Hs|]].
  - rewrite Htd. tauto.
  - intros names ->. rewrite convert_loop_names in H. injection H as <- _ <-. auto.
Qed.

Lemma convert_files_to_filenames_facts_witness :
  length ["/etc/hosts"; "/tmp/tmp0/notes.txt"; "/tmp/tmp0/tmp1"]
  = length [FileName "/etc/hosts"; FileObject (Some "/home/alice/notes.txt") "a";
            FileObject None "b"] /\
  (Some "/tmp/tmp0" = None <->
   forallb is_name [FileName "/etc/hosts"; FileObject (Some "/home/alice/notes.txt") "a";
                    FileObject None "b"] = true) /\
  length (scratch
            {| spawned := []; fed := []; killed := [];
               scratch := [("/tmp/tmp0",
                            [("/tmp/tmp0/notes.txt", "a"); ("/tmp/tmp0/tmp1", "b")])];
               fresh := 2 |})
  = (length (scratch initial) + 1)%nat /\
  (forall names,
     [FileName "/etc/hosts"; FileObject (Some "/home/alice/notes.txt") "a";
      FileObject None "b"] = map FileName names ->
     ["/etc/hosts"; "/tmp/tmp0/notes.txt"; "/tmp/tmp0/tmp1"] = names /\
     {| spawned := []; fed := []; killed := [];
        scratch := [("/tmp/tmp0",
                     [("/tmp/tmp0/notes.txt", "a"); ("/tmp/tmp0/tmp1", "b")])];
        fresh := 2 |} = initial).
Proof.
  apply (convert_files_to_filenames_facts
           [FileName "/etc/hosts"; FileObject (Some "/home/alice/notes.txt") "a";
            FileObject None "b"] initial
           ["/etc/hosts"; "/tmp/tmp0/notes.txt"; "/tmp/tmp0/tmp1"] (Some "/tmp/tmp0")).
  reflexivity.
Defined.

Lemma fixup_none_scratch sys c tool label value targets st :
  scratch (snd (fixup sys c None tool label value targets st)) = scratch st.
Proof.
  unfold fixup.
  destruct value as [v|]; [|reflexivity].
  destruct (Py.truthy v); [|reflexivity].
  unfold bind.
  pose proof (run_keeps_scratch sys c (b_quote ([tool; v] ++ targets)) bash false [] st) as H.
  destruct (run sys c (b_quote ([tool; v] ++ targets)) bash false [] st)
    as [[res | e] st']; simpl in *; [|exact H].
  destruct (returncode res =? 0)%Z; exact H.
Qed.

(** X15: an upload of file names only never touches the scratch
    directories: on every path through [scp], whatever the children do,
    the directories that exist afterwards are those that existed
    before. *)
Theorem scp_names_only_keeps_scratch sys c names target mode owner st :
  scratch (snd (scp sys c (FileList (map FileName names)) target mode owner st))
  = scratch st.
Proof.
  destruct (primary_only c) eqn:Hrole.
  { rewrite scp_primary_only by exact Hrole. reflexivity. }
  assert (Hconv : convert_files_to_filenames (map FileName names) st
                  = (Ok (names, None), st))
    by (unfold convert_files_to_filenames; apply convert_loop_names).
  destruct (scp_command c names target) as [cmd | e] eqn:Hcmd.
  2: { unfold scp. unfold primary_only in Hrole. rewrite Hrole.
       unfold bind at 1. rewrite Hconv. cbn [fst snd].
       unfold bind, lift. rewrite Hcmd. reflexivity. }
  destruct (child sys (length (spawned st))) as [msg | f] eqn:Hchild.
  { unfold scp. unfold primary_only in Hrole. rewrite Hrole.
    unfold bind at 1. rewrite Hconv. cbn [fst snd].
    unfold bind at 1. unfold lift. rewrite Hcmd.
    unfold bind, Popen. rewrite Hchild. reflexivity. }
  rewrite (scp_after_transfer _ _ _ _ _ _ _ _ _ _ _ _ Hrole Hconv Hcmd Hchild).
  destruct f as [out err code | msg]; [|reflexivity].
  destruct (code =? 0)%Z; cbn [negb]; [|reflexivity].
  unfold bind at 1. cbn [cleanup_tmp_dir].
  destruct (Py.truthy_opt mode || Py.truthy_opt owner); [|reflexivity].
  unfold bind at 1.
  match goal with
  | |- context [get_scp_targets sys c names target ?s] =>
      pose proof (get_scp_targets_keeps_scratch sys c names target s) as Ht;
      destruct (get_scp_targets sys c names target s) as [[targets | e] s2]
  end; cbn [snd scratch] in Ht; [|exact Ht].
  unfold bind at 1.
  pose proof (fixup_none_scratch sys c "chmod" "change mode: " mode targets s2) as Hm.
  destruct (fixup sys c None "chmod" "change mode: " mode targets s2) as [[[] | e] s3];
    cbn [snd] in Hm; cbv beta iota; cbn [snd]; [|congruence].
  pose proof (fixup_none_scratch sys c "chown" "change owner: " owner targets s3) as Ho.
  destruct (fixup sys c None "chown" "change owner: " owner targets s3) as [[[] | e] s4];
    cbn [snd] in Ho; unfold ret; cbv beta iota; cbn [snd]; congruence.
Qed.

(** ** Tunnels and the destructor *)







(** ** Quoting *)

Lemma append_cons w c s :
  ((w ++ String c EmptyString) ++ s)%string = (w ++ String c s)%string.
Proof. induction w as [|a w IH]; simpl; [reflexivity | rewrite IH; reflexivity]. Qed.

Lemma append_empty w : (w ++ EmptyString)%string = w.
Proof. induction w as [|a w IH]; simpl; [reflexivity | rewrite IH; reflexivity]. Qed.

Lemma append_assoc_s (a b0 c : string) : ((a ++ b0) ++ c)%string = (a ++ (b0 ++ c))%string.
Proof. induction a as [|x a IH]; simpl; [reflexivity | rewrite IH; reflexivity]. Qed.

Lemma safe_is_plain c :
  Py.shell_safe c = true ->
  Ascii.eqb c " "%char = false /\ Ascii.eqb c "'"%char = false /\
  Ascii.eqb c (ascii_of_nat 34) = false.
Proof.
  intros H. repeat split.
  - destruct (Ascii.eqb c " "%char) eqn:E; [|reflexivity].
    apply Ascii.eqb_eq in E. subst c. discriminate H.
  - destruct (Ascii.eqb c "'"%char) eqn:E; [|reflexivity].
    apply Ascii.eqb_eq in E. subst c. discriminate H.
  - destruct (Ascii.eqb c (ascii_of_nat 34)) eqn:E; [|reflexivity].
    apply Ascii.eqb_eq in E. subst c. discriminate H.
Qed.

(** A run of safe characters extends the word being read. *)
Lemma sh_words_safe s : forall w words rest,
  forallb Py.shell_safe (list_ascii_of_string s) = true ->
  sh_words Bare (Some w) words (s ++ rest) = sh_words Bare (Some (w ++ s)%string) words rest.
Proof.
  induction s as [|c s IH]; intros w words rest H.
  - simpl. rewrite append_empty. reflexivity.
  - simpl in H. apply andb_prop in H. destruct H as [Hc Hs].
    destruct (safe_is_plain c Hc) as (E1 & E2 & E3).
    cbn [append sh_words]. rewrite E1, E2, E3, Hc.
    unfold push. rewrite (IH _ _ _ Hs), append_cons. reflexivity.
Qed.

(** The body that [pipes.quote] puts between single quotes reads back
    as the original text. *)
Lemma sh_words_escaped s : forall w words rest,
  sh_words InSingle (Some w) words (Py.escape_squotes s ++ String "'"%char rest)
  = sh_words Bare (Some (w ++ s)%string) words rest.
Proof.
  induction s as [|c s IH]; intros w words rest.
  - simpl. rewrite append_empty. reflexivity.
  - cbn [Py.escape_squotes].
    destruct (Ascii.eqb c "'"%char) eqn:E.
    + apply Ascii.eqb_eq in E. subst c.
      unfold Py.squote, Py.dquote.
      cbn -[Py.escape_squotes]. unfold begun, push.
      rewrite IH, append_cons. reflexivity.
    + cbn [append sh_words]. rewrite E. unfold push.
      rewrite IH, append_cons. reflexivity.
Qed.

(** One quoted chunk reads back as that chunk. *)
Lemma sh_words_quote s words rest :
  sh_words Bare None words (Py.quote s ++ rest) = sh_words Bare (Some s) words rest.
Proof.
  unfold Py.quote.
  destruct s as [|c s]; [reflexivity|].
  cbn [Py.truthy negb].
  destruct (forallb Py.shell_safe (list_ascii_of_string (String c s))) eqn:Hsafe.
  - simpl in Hsafe. apply andb_prop in Hsafe. destruct Hsafe as [Hc Hs].
    destruct (safe_is_plain c Hc) as (E1 & E2 & E3).
    cbn [append sh_words]. rewrite E1, E2, E3, Hc. unfold push.
    rewrite (sh_words_safe s _ _ _ Hs). reflexivity.
  - unfold Py.squote.
    replace (("'" ++ Py.escape_squotes (String c s) ++ "'") ++ rest)%string
      with (String "'"%char (Py.escape_squotes (String c s) ++ String "'"%char rest))
      by (cbn [append]; rewrite append_assoc_s; reflexivity).
    cbn [sh_words Ascii.eqb Bool.eqb]. unfold begun.
    rewrite sh_words_escaped. reflexivity.
Qed.

Lemma sh_words_joined chunks : forall words,
  sh_words Bare None words (String.concat " " (map Py.quote chunks))
  = Some (words ++ chunks).
Proof.
  induction chunks as [|x chunks IH]; intros words.
  - simpl. rewrite app_nil_r. reflexivity.
  - destruct chunks as [|y chunks].
    + cbn [map String.concat].
      rewrite <- (append_empty (Py.quote x)), sh_words_quote. reflexivity.
    + change (String.concat " " (map Py.quote (x :: y :: chunks)))
        with (Py.quote x ++ " " ++ String.concat " " (map Py.quote (y :: chunks)))%string.
      rewrite sh_words_quote.
      change (" " ++ String.concat " " (map Py.quote (y :: chunks)))%string
        with (String " "%char (String.concat " " (map Py.quote (y :: chunks)))).
      cbn [sh_words Ascii.eqb Bool.eqb flush].
      rewrite IH, <- app_assoc. reflexivity.
Qed.

(** X19: quoting loses nothing.  The command line [b_quote] builds from
    a list of chunks, split into words the way a POSIX shell does,
    gives back exactly those chunks: every chunk is one word, whatever
    blanks, quotes or other characters it contains. *)
Theorem b_quote_reads_back chunks : sh_split (b_quote chunks) = Some chunks.
Proof.
  unfold sh_split, b_quote, Py.join, b, u.
  change (map (fun chunk : string => Py.quote chunk) chunks) with (map Py.quote chunks).
  apply (sh_words_joined chunks []).
Qed.

Example b_quote_reads_back_ex :
  b_quote ["chmod"; "0644"; "/tmp/it's here"; EmptyString]
  = String.concat " "
      ["chmod"; "0644";
       ("'/tmp/it'" ++ Py.dquote ++ "'" ++ Py.dquote ++ "'s here'")%string; "''"] /\
  sh_split (b_quote ["chmod"; "0644"; "/tmp/it's here"; EmptyString])
  = Some ["chmod"; "0644"; "/tmp/it's here"; EmptyString].
Proof. split; reflexivity. Qed.

(** ** Server and login names *)

Lemma ident_tail_spec l :
  Py.ident_tail l = true <->
  forallb Py.ident_char l = true \/
  exists l', l = l' ++ [Py.newline] /\ forallb Py.ident_char l' = true.
Proof.
  induction l as [|c l IH].
  - simpl. split; auto.
  - destruct l as [|d l].
    + cbn [Py.ident_tail forallb]. rewrite andb_true_r. split.
      * intros H. apply orb_prop in H. destruct H as [H | H]; [left; exact H|].
        apply Ascii.eqb_eq in H. subst c. right. exists []. split; reflexivity.
      * intros [H | [l' [E H]]]; [rewrite H; reflexivity|].
        destruct l' as [|x l'].
        -- injection E as ->. apply orb_true_r.
        -- injection E as -> E. destruct l'; discriminate E.
    + change (Py.ident_tail (c :: d :: l))
        with (Py.ident_char c && Py.ident_tail (d :: l)).
      cbn [forallb] in *. split.
      * intros H. apply andb_prop in H. destruct H as [Hc Ht].
        apply IH in Ht. destruct Ht as [Ht | [l' [E Ht]]].
        -- left. rewrite Hc. exact Ht.
        -- right. exists (c :: l'). split; [rewrite E; reflexivity|].
           cbn [forallb]. rewrite Hc. exact Ht.
      * intros [H | [l' [E H]]].
        -- apply andb_prop in H. destruct H as [Hc Ht]. rewrite Hc.
           apply IH. left. exact Ht.
        -- destruct l' as [|x l']; [discriminate E|].
           injection E as -> E. cbn [forallb] in H.
           apply andb_prop in H. destruct H as [Hc Ht]. rewrite Hc.
           apply IH. right. exists l'. split; assumption.
Qed.

Lemma ident_match_spec name : Py.ident_match name = true <-> well_formed_name name.
Proof.
  unfold Py.ident_match, well_formed_name.
  destruct (list_ascii_of_string name) as [|c l].
  - split; [discriminate|].
    intros [body [Hne [_ [E | E]]]]; [congruence|].
    destruct body; [congruence | discriminate E].
  - split.
    + intros H. apply andb_prop in H. destruct H as [Hc Ht].
      apply ident_tail_spec in Ht. destruct Ht as [Ht | [l' [E Ht]]].
      * exists (c :: l). split; [discriminate|]. split; [|left; reflexivity].
        cbn [forallb]. rewrite Hc. exact Ht.
      * exists (c :: l'). split; [discriminate|]. split; [|right; rewrite E; reflexivity].
        cbn [forallb]. rewrite Hc. exact Ht.
    + intros [body [Hne [Hb [E | E]]]].
      * subst body. cbn [forallb] in Hb. apply andb_prop in Hb. destruct Hb as [Hc Ht].
        rewrite Hc. apply ident_tail_spec. left. exact Ht.
      * destruct body as [|x body]; [congruence|].
        injection E as -> E. cbn [forallb] in Hb.
        apply andb_prop in Hb. destruct Hb as [Hc Ht].
        rewrite Hc. apply ident_tail_spec. right. exists body. split; assumption.
Qed.

(** X20: [check_server] and [check_login] accept a name exactly when it
    is a non-empty run of letters, digits, dots, dashes and underscores,
    possibly followed by one newline (which [$] lets through); any
    other name raises [SSHError].  Neither touches the machine. *)
Theorem check_names name st :
  (well_formed_name name ->
   check_server name st = (Ok tt, st) /\ check_login name st = (Ok tt, st)) /\
  (~ well_formed_name name ->
   check_server name st = (Raise (SSHError "Server name contains illegal symbols"), st) /\
   check_login name st = (Raise (SSHError "User login contains illegal symbols"), st)).
Proof.
  unfold check_server, check_login. split; intros H.
  - apply ident_match_spec in H. rewrite H. split; reflexivity.
  - destruct (Py.ident_match name) eqn:E.
    + exfalso. apply H. apply ident_match_spec. exact E.
    + split; reflexivity.
Qed.

Example check_names_ex :
  fst (check_server "build-01.example.org" initial) = Ok tt /\
  fst (check_server (String.append "localhost" (String Py.newline EmptyString)) initial) = Ok tt /\
  fst (check_server "-v" initial) = Ok tt /\
  fst (check_server "host; rm -rf /" initial)
  = Raise (SSHError "Server name contains illegal symbols") /\
  fst (check_server EmptyString initial)
  = Raise (SSHError "Server name contains illegal symbols").
Proof. repeat split. Qed.

(** ** Downloads that succeed *)

(** X21: once the download command is built and its child started,
    [scp_down] returns normally exactly when the child exits 0 and
    neither a mode nor an owner was asked for; the transfer child is
    then the only process started and nothing is fed or signalled. *)
Theorem scp_down_succeeds_iff sys c remotefile localtarget mode owner st cmd f :
  scp_down_command c remotefile localtarget = Ok (Some cmd) ->
  child sys (length (spawned st)) = Spawns f ->
  (fst (scp_down sys c remotefile localtarget mode owner st) = Ok tt <->
   (exists out err, f = Completed out err 0) /\
   Py.truthy_opt mode || Py.truthy_opt owner = false) /\
  (fst (scp_down sys c remotefile localtarget mode owner st) = Ok tt ->
   snd (scp_down sys c remotefile localtarget mode owner st)
   = {| spawned := spawned st ++ [{| argv := cmd; auth_sock := get_env c; piped := true |}];
        fed := fed st; killed := killed st;
        scratch := scratch st; fresh := fresh st |}).
Proof.
  intros Hcmd Hchild.
  unfold scp_down, bind, lift, Popen, communicate, kill, raise, ret.
  rewrite Hcmd, Hchild. cbn [pipe_fate fst snd].
  destruct f as [out err code | msg]; cbn [fst snd].
  - destruct (code =? 0)%Z eqn:Hcode; cbn [negb fst snd].
    + apply Z.eqb_eq in Hcode. subst code.
      destruct (Py.truthy_opt mode || Py.truthy_opt owner); cbn [fst snd].
      * split; [|discriminate]. split; [discriminate|]. intros [_ H]. discriminate H.
      * split; [|reflexivity]. split; [|reflexivity]. intros _. split; [eauto | reflexivity].
    + split; [|discriminate]. split; [discriminate|].
      intros [[o [e H]] _]. injection H as _ _ ->. discriminate Hcode.
  - split; [|discriminate]. split; [discriminate|].
    intros [[o [e H]] _]. discriminate H.
Qed.

Lemma scp_down_succeeds_iff_witness :
  (fst (scp_down (Bench.machine []) Bench.standalone (Some "remote.txt")
          (Some "/tmp/local.txt") None None initial) = Ok tt <->
   (exists out err, Completed "out" "err" 0 = Completed out err 0) /\
   Py.truthy_opt None || Py.truthy_opt None = false) /\
  (fst (scp_down (Bench.machine []) Bench.standalone (Some "remote.txt")
          (Some "/tmp/local.txt") None None initial) = Ok tt ->
   snd (scp_down (Bench.machine []) Bench.standalone (Some "remote.txt")
          (Some "/tmp/local.txt") None None initial)
   = {| spawned := spawned initial ++
                   [{| argv := ["/usr/bin/scp"; "-q"; "-r"; "-F"; "ssh_config.test";
                                "alice@localhost:remote.txt"; "/tmp/local.txt"];
                       auth_sock := get_env Bench.standalone; piped := true |}];
        fed := fed initial; killed := killed initial;
        scratch := scratch initial; fresh := fresh initial |}).
Proof.
  apply (scp_down_succeeds_iff (Bench.machine []) Bench.standalone (Some "remote.txt")
           (Some "/tmp/local.txt") None None initial
           ["/usr/bin/scp"; "-q"; "-r"; "-F"; "ssh_config.test";
            "alice@localhost:remote.txt"; "/tmp/local.txt"] (Completed "out" "err" 0));
    reflexivity.
Defined.

Lemma check_names_witness :
  check_server "build-01.example.org" initial = (Ok tt, initial) /\
  check_login "build-01.example.org" initial = (Ok tt, initial).
Proof.
  apply (check_names "build-01.example.org" initial).
  exists (list_ascii_of_string "build-01.example.org").
  split; [discriminate|]. split; [reflexivity | left; reflexivity].
Defined.
